(** * Quantum-Virtual-Machine: the simulator artifact store

    A shallow embedding of the two Python modules of the repository,

    - [src/qiskit/save_ibm_simulators.py]   (the artifact Builder), and
    - [src/qiskit/qiskit_quantum_simulator.py] (the artifact Runner),

    together with the properties their specification states about them.

    Python strings are [string]; the two allow-lists of the Runner are
    [gset string]; the file system is a finite map from path names to
    nodes; the quantum SDK, the remote service and the serializer are an
    interface ([SDK]) whose operations thread an environment of their own,
    so that every theorem holds for every behaviour of these collaborators. *)

From Stdlib Require Import Strings.String Strings.Ascii Lists.List Strings.Byte Bool Arith Lia.
From stdpp Require Import base strings gmap.

Set Default Proof Using "Type".

(** ** Python string primitives *)

Module PyStr.

(** [s.startswith(p)]. *)
Definition startswith (s p : string) : bool := String.prefix p s.

(** [s.endswith(suf)]: some tail of [s] is [suf]. *)
Fixpoint endswith (s suf : string) : bool :=
  String.eqb s suf ||
  match s with
  | EmptyString => false
  | String _ s' => endswith s' suf
  end.

(** [s.replace(old, new)] for a non-empty [old]: scan from the left; at
    every position where [old] starts, emit [new] and skip over the match
    (matches do not overlap).  [skip] counts the characters of the current
    match that are still to be dropped. *)
Fixpoint replace_from (skip : nat) (s old new : string) : string :=
  match s with
  | EmptyString => EmptyString
  | String c s' =>
      match skip with
      | S k => replace_from k s' old new
      | O =>
          if startswith s old
          then new +:+ replace_from (String.length old - 1) s' old new
          else String c (replace_from 0 s' old new)
      end
  end.

Definition replace (s old new : string) : string := replace_from 0 s old new.

(** The newline character of the two-line error messages. *)
Definition nl : string := String (Ascii.ascii_of_nat 10) EmptyString.

End PyStr.

(** ** [os.path.join] (POSIX flavour)

    [posixpath.join(a, *p)] folds the components from the left: a component
    that starts with the separator replaces what was accumulated; an empty
    accumulator, or one that already ends with the separator, takes the
    component as it is; otherwise the separator is inserted. *)

Module OsPath.

Definition sep : string := "/".

Definition join_step (path b : string) : string :=
  if PyStr.startswith b sep then b
  else if String.eqb path "" || PyStr.endswith path sep then path +:+ b
  else path +:+ sep +:+ b.

Definition join (a : string) (p : list string) : string :=
  fold_left join_step p a.

End OsPath.

(** ** The fixed vocabularies *)

(** [QiskitQuantumSimulator.__SUPPORTED_SIMULATION_METHODS] (a Python set). *)
Definition SUPPORTED_SIMULATION_METHODS : gset string :=
  {[ "aer_simulator_statevector";
     "aer_simulator_density_matrix";
     "aer_simulator_stabilizer";
     "aer_simulator_matrix_product_state";
     "aer_simulator_extended_stabilizer";
     "aer_simulator_unitary";
     "aer_simulator_superop";
     "aer_simulator_statevector_gpu";
     "aer_simulator_density_matrix_gpu";
     "aer_simulator_unitary_gpu" ]}.

(** [QiskitQuantumSimulator.__AVAILABLE_BACKENDS] (a Python set). *)
Definition AVAILABLE_BACKENDS : gset string :=
  {[ "ibm_brisbane"; "ibm_sherbrooke" ]}.

(** [target_backends] of [save_ibm_simulators] (a Python list). *)
Definition target_backends : list string :=
  [ "ibm_brisbane"; "ibm_sherbrooke" ].

(** [simulation_methods] of [save_ibm_simulators] (a Python list). *)
Definition simulation_methods : list string :=
  [ "aer_simulator_statevector";
    "aer_simulator_density_matrix";
    "aer_simulator_stabilizer";
    "aer_simulator_matrix_product_state";
    "aer_simulator_extended_stabilizer";
    "aer_simulator_unitary";
    "aer_simulator_superop";
    "aer_simulator_statevector_gpu";
    "aer_simulator_density_matrix_gpu";
    "aer_simulator_unitary_gpu" ].

(** ** Artifact paths *)

(** The Runner, [__set_simulator] lines 99-101:
    [folder_path = os.path.join(BASE, "ibm_simulators", backend)],
    [filename = f"{method}.dill"], [filepath = os.path.join(folder_path, filename)]. *)
Definition runner_filepath (base backend method : string) : string :=
  let folder_path := OsPath.join base [ "ibm_simulators"; backend ] in
  let filename := method +:+ ".dill" in
  OsPath.join folder_path [ filename ].

(** The Builder, [save_ibm_simulators] lines 46, 62, 72-73. *)
Definition builder_root_dir (base_path : string) : string :=
  OsPath.join base_path [ "ibm_simulators" ].

Definition builder_backend_dir (root_dir backend_name : string) : string :=
  OsPath.join root_dir [ backend_name ].

Definition builder_filepath (backend_dir method : string) : string :=
  let filename := method +:+ ".dill" in
  OsPath.join backend_dir [ filename ].


(** The layout the specification writes:
    [{base_path}/ibm_simulators/{backend_name}/{method_name}.dill]. *)
Definition spec_layout (base backend method : string) : string :=
  base +:+ "/ibm_simulators/" +:+ backend +:+ "/" +:+ method +:+ ".dill".

(** A component that neither is empty nor touches a separator at either
    end; every name of the fixed vocabularies is one. *)
Definition plain (name : string) : Prop :=
  name <> "" /\ PyStr.startswith name OsPath.sep = false
  /\ PyStr.endswith name OsPath.sep = false.

(** ** Exceptions and results *)

(** The exception classes that occur.  [IOError] is Python 3's alias of
    [OSError]; the five classes after it are the subclasses the file
    system raises; [External] stands for any class of the SDK, the service
    client or the serializer.  Only subclasses of [Exception] are modelled:
    they are what [except Exception] catches. *)
Inductive exn_class : Type :=
  | ValueError
  | TypeError
  | RuntimeError
  | IOError
  | FileNotFoundError
  | IsADirectoryError
  | FileExistsError
  | NotADirectoryError
  | PermissionError
  | External (name : string).

(** An exception: its class and [str(e)]. *)
Record exn : Type := Exn { exn_cls : exn_class; exn_str : string }.

Inductive result (A : Type) : Type :=
  | Return (a : A)
  | Raise (e : exn).
Arguments Return {A} a.
Arguments Raise {A} e.

(** ** The file system *)

Inductive node : Type :=
  | Dir
  | File (content : list byte).

Module Os.

(** The map holds the entries that are known by their path.  The
    directories on the way to an entry are there without being listed: a
    directory exists when the map holds [Dir] at its path or holds an entry
    below it, and creating a directory creates its missing ancestors with
    it. *)

(** [entry] lies below the directory [path]. *)
Definition below (path entry : string) : bool := String.prefix (path +:+ "/") entry.

Definition has_entry_below (path : string) (fs : gmap string node) : bool :=
  existsb (fun entry => below path (fst entry)) (map_to_list fs).

(** The proper ancestors of a path, shortest first: what stands before each
    separator, the empty string left out. *)
Fixpoint ancestors_from (seen rest : string) : list string :=
  match rest with
  | EmptyString => []
  | String c rest' =>
      (if Ascii.eqb c "/" && negb (String.eqb seen "") then [ seen ] else [])
      ++ ancestors_from (seen +:+ String c EmptyString) rest'
  end.

Definition ancestors (path : string) : list string := ancestors_from "" path.

(** Along a path and its ancestors, the first component that stands
    directly below a regular file: the one the operating system rejects
    with [ENOTDIR]. *)
Fixpoint rejected (chain : list string) (fs : gmap string node) : option string :=
  match chain with
  | a :: ((b :: _) as rest) =>
      match fs !! a with
      | Some (File _) => Some b
      | _ => rejected rest fs
      end
  | _ => None
  end.

(** [open(path, 'rb')] followed by reading the whole file.  A regular
    file at the path is read: whether the process is allowed to read it is
    not modelled. *)
Definition open_rb (path : string) (fs : gmap string node) : result (list byte) :=
  match fs !! path with
  | Some (File content) => Return content
  | Some Dir =>
      Raise (Exn IsADirectoryError ("[Errno 21] Is a directory: '" +:+ path +:+ "'"))
  | None =>
      match rejected (ancestors path ++ [ path ]) fs with
      | Some _ =>
          Raise (Exn NotADirectoryError ("[Errno 20] Not a directory: '" +:+ path +:+ "'"))
      | None =>
          Raise (Exn FileNotFoundError
                   ("[Errno 2] No such file or directory: '" +:+ path +:+ "'"))
      end
  end.

(** [open(path, 'wb')]: creates the file, or truncates the one there.  The
    parent directory is taken to exist: the Builder creates it first. *)
Definition open_wb (path : string) (fs : gmap string node) : result (gmap string node) :=
  match fs !! path with
  | Some Dir =>
      Raise (Exn IsADirectoryError ("[Errno 21] Is a directory: '" +:+ path +:+ "'"))
  | _ => Return (<[path := File []]> fs)
  end.

(** [os.makedirs(path, exist_ok=True)].  A regular file at [path] is an
    error, a directory that exists is not.  A directory that has to be
    created is refused when a regular file stands among its ancestors, and
    when the operating system has a reason of its own, which the map does
    not show ([refusal]: permissions, a read-only or full file system). *)
Definition makedirs_exist_ok (refusal : option exn) (path : string)
    (fs : gmap string node) : result (gmap string node) :=
  match fs !! path with
  | Some (File _) =>
      Raise (Exn FileExistsError ("[Errno 17] File exists: '" +:+ path +:+ "'"))
  | Some Dir => Return (<[path := Dir]> fs)
  | None =>
      if has_entry_below path fs then Return (<[path := Dir]> fs)
      else
        match rejected (ancestors path ++ [ path ]) fs with
        | Some component =>
            Raise (Exn NotADirectoryError
                     ("[Errno 20] Not a directory: '" +:+ component +:+ "'"))
        | None =>
            match refusal with
            | Some e => Raise e
            | None => Return (<[path := Dir]> fs)
            end
        end
  end.

End Os.

(** ** The external collaborators

    The remote service client, the simulation SDK, the serializer and,
    for what the file-system map does not show, the operating system.
    Their calls may succeed or raise, and may depend on and change a state
    of their own ([Env]: the network, the service, the SDK's internals). *)
Record SDK : Type := {
  Env : Type;
  Service : Type;
  Backend : Type;
  PyObj : Type;
  Circuit : Type;
  Sampler : Type;
  Job : Type;
  (** [QiskitRuntimeService(channel=channel, token=token)] *)
  QiskitRuntimeService : string -> string -> Env -> Env * result Service;
  (** [service.backend(backend_name)] *)
  service_backend : Service -> string -> Env -> Env * result Backend;
  (** [AerSimulator.from_backend(backend)] *)
  AerSimulator_from_backend : Backend -> Env -> Env * result PyObj;
  (** [simulator.set_options(method=base_method, device=device)]; the
      simulator is configured in place, here it is returned. *)
  set_options : PyObj -> string -> string -> Env -> Env * result PyObj;
  (** [dill.dump(simulator, f)]: the bytes that reached the file, and the
      exception if serialization did not complete. *)
  dill_dump : PyObj -> Env -> Env * (list byte * option exn);
  (** [dill.load(f)] on the content of the file. *)
  dill_load : list byte -> result PyObj;
  (** [hasattr(obj, name)] *)
  hasattr : PyObj -> string -> bool;
  (** [transpile(circuit, backend=simulator, optimization_level=n)] *)
  transpile : Circuit -> PyObj -> nat -> Env -> Env * result Circuit;
  (** [Sampler(mode=simulator)] *)
  SamplerV2 : PyObj -> Env -> Env * result Sampler;
  (** [sampler.run(circuits)] *)
  sampler_run : Sampler -> list Circuit -> Env -> Env * result Job;
  (** How the interpreter prints a set inside an f-string; the order of the
      elements depends on the hash seed of the process. *)
  repr_set : gset string -> string;
  (** What the operating system has against creating the directory at a
      path, for a reason the file-system map does not show (permissions, a
      read-only or full file system); [None] when it has nothing. *)
  os_refuses : string -> option exn
}.

(** ** A state and exception monad *)

Definition M (S A : Type) : Type := S -> S * result A.

Definition ret {S A} (a : A) : M S A := fun s => (s, Return a).

Definition raise {S A} (e : exn) : M S A := fun s => (s, Raise e).

Definition bind {S A B} (m : M S A) (k : A -> M S B) : M S B :=
  fun s =>
    match m s with
    | (s', Return a) => k a s'
    | (s', Raise e) => (s', Raise e)
    end.

Notation "x <- m ;; k" := (bind m (fun x => k))
  (at level 100, m at next level, right associativity).
Notation "m ;;; k" := (bind m (fun _ => k))
  (at level 100, right associativity).

(** [try: body except Exception as e: handler e].  What [body] did to the
    state before raising stays done. *)
Definition try_except {S A} (body : M S A) (handler : exn -> M S A) : M S A :=
  fun s =>
    match body s with
    | (s', Return a) => (s', Return a)
    | (s', Raise e) => handler e s'
    end.

(** [for x in xs: body x]; an exception leaving [body] ends the loop. *)
Fixpoint for_each {S A} (xs : list A) (body : A -> M S unit) : M S unit :=
  match xs with
  | [] => ret tt
  | x :: xs' => body x ;;; for_each xs' body
  end.

Definition when {S} (b : bool) (m : M S unit) : M S unit :=
  if b then m else ret tt.

(** ** The artifact Builder: [save_ibm_simulators.py] *)

Section Program.

Context {sdk : SDK}.

(** What a run of the Builder acts on: the collaborators' state, the file
    system, and the lines printed so far. *)
Record World : Type := {
  env : Env sdk;
  fs : gmap string node;
  stdout : list string
}.

(** A call to a collaborator. *)
Definition call {A} (f : Env sdk -> Env sdk * result A) : M World A :=
  fun w =>
    let (e', r) := f (env w) in
    ({| env := e'; fs := fs w; stdout := stdout w |}, r).

(** [print(line)] *)
Definition print (line : string) : M World unit :=
  fun w => ({| env := env w; fs := fs w; stdout := stdout w ++ [line] |}, Return tt).

(** [os.makedirs(path, exist_ok=True)] *)
Definition makedirs (path : string) : M World unit :=
  fun w =>
    match Os.makedirs_exist_ok (os_refuses sdk path) path (fs w) with
    | Return fs' => ({| env := env w; fs := fs'; stdout := stdout w |}, Return tt)
    | Raise e => (w, Raise e)
    end.

(** [with open(filepath, "wb") as f: dill.dump(simulator, f)].  Opening
    creates or truncates the file; then the serializer writes; leaving the
    [with] block closes the file, also when the serializer raised, so
    what had been written stays in it. *)
Definition open_wb_dump (filepath : string) (simulator : PyObj sdk) : M World unit :=
  fun w =>
    match Os.open_wb filepath (fs w) with
    | Raise e => (w, Raise e)
    | Return fs1 =>
        let '(e', (written, failure)) := dill_dump sdk simulator (env w) in
        let w' := {| env := e';
                     fs := <[filepath := File written]> fs1;
                     stdout := stdout w |} in
        match failure with
        | None => (w', Return tt)
        | Some e => (w', Raise e)
        end
    end.

(** Line 67: [device = "GPU" if method.endswith("_gpu") else "CPU"]. *)
Definition device (method : string) : string :=
  if PyStr.endswith method "_gpu" then "GPU" else "CPU".

(** Line 68:
    [base_method = method.replace("aer_simulator_", "").replace("_gpu", "")]. *)
Definition base_method (method : string) : string :=
  PyStr.replace (PyStr.replace method "aer_simulator_" "") "_gpu" "".

(** Lines 67-70: the simulator mirroring [backend], configured for [method]. *)
Definition configured_simulator (backend : Backend sdk) (method : string)
  : M World (PyObj sdk) :=
  let device := device method in
  let base_method := base_method method in
  simulator <- call (AerSimulator_from_backend sdk backend) ;;
  call (set_options sdk simulator base_method device).

(** Lines 67-78: what the [try] of the loop over the methods protects. *)
Definition save_method_try (verbose : bool) (backend : Backend sdk)
    (backend_dir method : string) : M World unit :=
  simulator <- configured_simulator backend method ;;
  let filename := method +:+ ".dill" in
  let filepath := OsPath.join backend_dir [ filename ] in
  open_wb_dump filepath simulator ;;;
  when verbose (print ("Saved simulator '" +:+ filepath +:+ "'")).

(** Lines 80-82: its handler. *)
Definition save_method_except (verbose : bool) (backend_name method : string) (e : exn)
  : M World unit :=
  when verbose
    (print ("Failed to save simulator for '" +:+ backend_name
            +:+ "' with method '" +:+ method +:+ "': " +:+ exn_str e)).

(** Lines 66-82: the body of the loop over the methods. *)
Definition save_method (verbose : bool) (backend : Backend sdk)
    (backend_dir backend_name method : string) : M World unit :=
  try_except
    (save_method_try verbose backend backend_dir method)
    (save_method_except verbose backend_name method).

(** Lines 55-60: [service.backend(backend_name)] under its handler; [None]
    stands for the [continue]. *)
Definition load_backend (verbose : bool) (service : Service sdk) (backend_name : string)
  : M World (option (Backend sdk)) :=
  try_except
    (backend <- call (service_backend sdk service backend_name) ;; ret (Some backend))
    (fun e =>
       when verbose
         (print ("Failed to load backend '" +:+ backend_name +:+ "': " +:+ exn_str e)) ;;;
       ret None).

(** Lines 55-82: the body of the loop over the backends. *)
Definition save_backend (verbose : bool) (service : Service sdk)
    (root_dir backend_name : string) : M World unit :=
  loaded <- load_backend verbose service backend_name ;;
  match loaded with
  | None => ret tt
  | Some backend =>
      let backend_dir := OsPath.join root_dir [ backend_name ] in
      makedirs backend_dir ;;;
      for_each simulation_methods
        (save_method verbose backend backend_dir backend_name)
  end.

(** Lines 49-52: the service client, its failure wrapped in a
    [RuntimeError]. *)
Definition init_service (channel token : string) : M World (Service sdk) :=
  try_except
    (call (QiskitRuntimeService sdk channel token))
    (fun e =>
       raise (Exn RuntimeError
                ("Failed to initialize QiskitRuntimeService: " +:+ exn_str e))).

(** [save_ibm_simulators(channel, token, base_path, verbose)]. *)
Definition save_ibm_simulators (channel token base_path : string) (verbose : bool)
  : M World unit :=
  let root_dir := OsPath.join base_path [ "ibm_simulators" ] in
  makedirs root_dir ;;;
  service <- init_service channel token ;;
  for_each target_backends (save_backend verbose service root_dir).


(** ** The artifact Runner: [qiskit_quantum_simulator.py] *)

(** A constructed [QiskitQuantumSimulator]: its three private attributes. *)
Record QiskitQuantumSimulator : Type := {
  ibm_backend_name : string;
  simulation_method_name : string;
  loaded_simulator : PyObj sdk
}.

(** [__load_simulator(filepath)]: every exception of the body, the
    [TypeError] of the capability check included, is wrapped in an
    [IOError]. *)
Definition load_simulator (files : gmap string node) (filepath : string)
  : result (PyObj sdk) :=
  let body :=
    match Os.open_rb filepath files with
    | Raise e => Raise e
    | Return content =>
        match dill_load sdk content with
        | Raise e => Raise e
        | Return simulator =>
            if negb (hasattr sdk simulator "run")
            then Raise (Exn TypeError "Loaded object is not a valid AerSimulator.")
            else Return simulator
        end
    end in
  match body with
  | Return simulator => Return simulator
  | Raise e =>
      Raise (Exn IOError
               ("Failed to load AerSimulator from " +:+ filepath +:+ ": " +:+ exn_str e))
  end.

(** [__set_ibm_backend(ibm_backend)]; the value returned is the one
    stored in [self.__ibm_backend_name]. *)
Definition set_ibm_backend (ibm_backend : string) : result string :=
  if decide (ibm_backend ∉ AVAILABLE_BACKENDS)
  then Raise (Exn ValueError
                ("Unsupported IBM backend: '" +:+ ibm_backend +:+ "'." +:+ PyStr.nl
                 +:+ "Available backends: " +:+ repr_set sdk AVAILABLE_BACKENDS))
  else Return ibm_backend.

(** [__set_simulator(method)].  [base] is the class attribute
    [__IBM_SIMULATORS_BASE_PATH], the value of [os.getenv]: [None] when the
    variable is not set, and [os.path.join] then raises a [TypeError].
    The values returned are the ones stored in [self.__simulation_method]
    and [self.__simulator]. *)
Definition set_simulator (base : option string) (files : gmap string node)
    (ibm_backend_name method : string) : result (string * PyObj sdk) :=
  if decide (method ∉ SUPPORTED_SIMULATION_METHODS)
  then Raise (Exn ValueError
                ("Unsupported simulation method: '" +:+ method +:+ "'." +:+ PyStr.nl
                 +:+ "Supported methods: " +:+ repr_set sdk SUPPORTED_SIMULATION_METHODS))
  else
    match base with
    | None =>
        Raise (Exn TypeError
                 "expected str, bytes or os.PathLike object, not NoneType")
    | Some base_path =>
        let folder_path :=
          OsPath.join base_path [ "ibm_simulators"; ibm_backend_name ] in
        let filename := method +:+ ".dill" in
        let filepath := OsPath.join folder_path [ filename ] in
        match load_simulator files filepath with
        | Raise e => Raise e
        | Return simulator => Return (method, simulator)
        end
    end.

(** [QiskitQuantumSimulator(ibm_backend, simulation_method)]: the backend
    is validated first, then the method is validated and the artifact
    loaded.  A caller that leaves [simulation_method] out passes
    ['aer_simulator_statevector']. *)
Definition init (base : option string) (files : gmap string node)
    (ibm_backend simulation_method : string) : result QiskitQuantumSimulator :=
  match set_ibm_backend ibm_backend with
  | Raise e => Raise e
  | Return name =>
      match set_simulator base files name simulation_method with
      | Raise e => Raise e
      | Return (method, simulator) =>
          Return {| ibm_backend_name := name;
                    simulation_method_name := method;
                    loaded_simulator := simulator |}
      end
  end.

(** [transpile_circuit(circuit)] *)
Definition transpile_circuit (self : QiskitQuantumSimulator) (circuit : Circuit sdk)
  : M (Env sdk) (Circuit sdk) :=
  transpile sdk circuit (loaded_simulator self) 1.

(** [run(circuit)] *)
Definition run (self : QiskitQuantumSimulator) (circuit : Circuit sdk)
  : M (Env sdk) (Job sdk) :=
  transpiled <- transpile_circuit self circuit ;;
  sampler <- SamplerV2 sdk (loaded_simulator self) ;;
  sampler_run sdk sampler [ transpiled ].

(** The accessors. *)
Definition available_simulation_methods (self : QiskitQuantumSimulator) : gset string :=
  SUPPORTED_SIMULATION_METHODS.

Definition available_backends (self : QiskitQuantumSimulator) : gset string :=
  AVAILABLE_BACKENDS.

Definition ibm_backend (self : QiskitQuantumSimulator) : string :=
  ibm_backend_name self.

Definition simulator (self : QiskitQuantumSimulator) : PyObj sdk :=
  loaded_simulator self.

Definition simulation_method (self : QiskitQuantumSimulator) : string :=
  simulation_method_name self.

(** What any part of a run of the Builder may do to the world: a regular
    file found afterwards was there before or has a name ending in
    [.dill], and what is printed is appended, nothing at all without
    [verbose]. *)
Definition builder_step (verbose : bool) (w w' : World) : Prop :=
  (forall p c,
     fs w' !! p = Some (File c) ->
     (exists c0, fs w !! p = Some (File c0)) \/ PyStr.endswith p ".dill" = true)
  /\ exists lines,
       stdout w' = stdout w ++ lines /\ (verbose = false -> lines = []).

(** The line printed for a backend whose handle the service refuses. *)
Definition backend_failure_line (backend_name : string) (e : exn) : string :=
  "Failed to load backend '" +:+ backend_name +:+ "': " +:+ exn_str e.


(** The file at [filepath] holds an artifact the Runner accepts: it is a
    regular file whose content deserializes to [obj], and [obj] has a [run]
    attribute. *)
Definition loadable (files : gmap string node) (filepath : string) (obj : PyObj sdk)
  : Prop :=
  exists content,
    files !! filepath = Some (File content)
    /\ dill_load sdk content = Return obj
    /\ hasattr sdk obj "run" = true.

End Program.

(** ** The specification's wording of the derived options *)

(** [s] without the prefix [p], when it has it. *)
Fixpoint chop_prefix (p s : string) : option string :=
  match p, s with
  | EmptyString, _ => Some s
  | String a p', String b s' => if Ascii.eqb a b then chop_prefix p' s' else None
  | String _ _, EmptyString => None
  end.

Definition removeprefix (p s : string) : string :=
  match chop_prefix p s with
  | Some rest => rest
  | None => s
  end.

(** [s] without the suffix [suf], when it has it. *)
Definition removesuffix (suf s : string) : string :=
  if PyStr.endswith s suf
  then String.substring 0 (String.length s - String.length suf) s
  else s.

(** "The method name with the [aer_simulator_] prefix and the [_gpu]
    suffix stripped". *)
Definition spec_base_method (method : string) : string :=
  removesuffix "_gpu" (removeprefix "aer_simulator_" method).

(** ** A small concrete instance of the collaborators

    Used to run the programs on concrete inputs.  Its environment is the
    list of the calls made so far, oldest first.  [down] lists the backends
    whose handle the service refuses; with [dump_fails] the serializer
    raises before a byte is written; no simulator can be built from the
    handle with the empty name. *)

Inductive toy_obj : Type :=
  | ToySimulator (backend method device : string)
  | ToyJunk.

Definition toy_bytes (o : toy_obj) : list byte :=
  match o with
  | ToySimulator _ _ _ => [ x80; x01 ]
  | ToyJunk => [ x80; x00 ]
  end.

Definition toy_load (content : list byte) : result toy_obj :=
  match content with
  | [] => Raise (Exn (External "EOFError") "Ran out of input")
  | [ x80; x01 ] => Return (ToySimulator "ibm_brisbane" "statevector" "CPU")
  | [ x80; x00 ] => Return ToyJunk
  | _ => Raise (Exn (External "UnpicklingError") "invalid load key")
  end.

Definition toy_sdk (down : list string) (dump_fails : bool) : SDK := {|
  Env := list string;
  Service := unit;
  Backend := string;
  PyObj := toy_obj;
  Circuit := string;
  Sampler := toy_obj;
  Job := list string;
  QiskitRuntimeService := fun channel token e =>
    (e ++ [ "QiskitRuntimeService" ], Return tt);
  service_backend := fun _ name e =>
    (e ++ [ "backend " +:+ name ],
     if bool_decide (name ∈ down)
     then Raise (Exn (External "QiskitBackendNotFoundError")
                   "No backend matches the criteria.")
     else Return name);
  AerSimulator_from_backend := fun b e =>
    (e ++ [ "from_backend" ],
     if String.eqb b ""
     then Raise (Exn (External "QiskitError") "backend has no calibration data")
     else Return (ToySimulator b "automatic" "CPU"));
  set_options := fun o m d e =>
    (e ++ [ "set_options " +:+ m +:+ " " +:+ d ],
     match o with
     | ToySimulator b _ _ => Return (ToySimulator b m d)
     | ToyJunk => Raise (Exn (External "AttributeError") "no attribute 'set_options'")
     end);
  dill_dump := fun o e =>
    (e ++ [ "dump" ],
     if dump_fails
     then ([], Some (Exn (External "PicklingError") "Can't pickle object"))
     else (toy_bytes o, None));
  dill_load := toy_load;
  hasattr := fun o name =>
    match o with
    | ToySimulator _ _ _ => String.eqb name "run" || String.eqb name "set_options"
    | ToyJunk => false
    end;
  transpile := fun c o level e =>
    (e ++ [ "transpile" ], Return ("transpiled " +:+ c));
  SamplerV2 := fun o e => (e ++ [ "Sampler" ], Return o);
  sampler_run := fun s cs e => (e ++ [ "sampler.run" ], Return cs);
  repr_set := fun names =>
    "{" +:+ String.concat ", " (map (fun n => "'" +:+ n +:+ "'") (elements names)) +:+ "}";
  os_refuses := fun _ => None
|}.

(** The world before anything has run: no call made, an empty file
    system, nothing printed. *)
Definition toy_world (down : list string) (dump_fails : bool)
  : @World (toy_sdk down dump_fails) :=
  {| env := ([] : Env (toy_sdk down dump_fails)); fs := ∅; stdout := [] |}.

(** ** Further relations between the worlds of a run *)

(** Nothing that was there goes away, and a directory, or a regular file
    whose name does not end in [.dill], stays exactly as it was. *)
Definition builder_keeps {sdk : SDK} (w w' : @World sdk) : Prop :=
  (forall p, is_Some (fs w !! p) -> is_Some (fs w' !! p))
  /\ (forall p n,
        fs w !! p = Some n ->
        n = Dir \/ PyStr.endswith p ".dill" = false ->
        fs w' !! p = Some n).

(** Exactly [n] lines were printed between [w] and [w']. *)
Definition prints {sdk : SDK} (n : nat) (w w' : @World sdk) : Prop :=
  exists lines, stdout w' = stdout w ++ lines /\ length lines = n.

(** The lines one backend prints: one when its handle is refused, one for
    each method when it is served, none without [verbose]. *)
Definition lines_printed {A} (verbose : bool) (handle : result A) : nat :=
  if verbose
  then match handle with
       | Return _ => length simulation_methods
       | Raise _ => 1
       end
  else 0.

(** The [FileExistsError] of [os.makedirs] for [path]. *)
Definition file_exists_error (path : string) : exn :=
  Exn FileExistsError ("[Errno 17] File exists: '" +:+ path +:+ "'").

(** A second instance, whose service client refuses the empty token, whose
    transpiler refuses the empty circuit and whose operating system lets
    nothing be created below [/readonly]; the rest is the first instance
    with every backend served. *)
Definition picky_sdk : SDK := {|
  Env := list string;
  Service := unit;
  Backend := string;
  PyObj := toy_obj;
  Circuit := string;
  Sampler := toy_obj;
  Job := list string;
  QiskitRuntimeService := fun channel token e =>
    (e ++ [ "QiskitRuntimeService" ],
     if String.eqb token ""
     then Raise (Exn (External "IBMNotAuthorizedError") "no token was given")
     else Return tt);
  service_backend := service_backend (toy_sdk [] false);
  AerSimulator_from_backend := AerSimulator_from_backend (toy_sdk [] false);
  set_options := set_options (toy_sdk [] false);
  dill_dump := dill_dump (toy_sdk [] false);
  dill_load := toy_load;
  hasattr := hasattr (toy_sdk [] false);
  transpile := fun c o level e =>
    (e ++ [ "transpile" ],
     if String.eqb c ""
     then Raise (Exn (External "TranspilerError") "the circuit is empty")
     else Return ("transpiled " +:+ c));
  SamplerV2 := SamplerV2 (toy_sdk [] false);
  sampler_run := sampler_run (toy_sdk [] false);
  repr_set := repr_set (toy_sdk [] false);
  os_refuses := fun path =>
    if String.prefix "/readonly" path
    then Some (Exn PermissionError ("[Errno 13] Permission denied: '" +:+ path +:+ "'"))
    else None
|}.

(** * Properties *)

(** Decidable facts about concrete names are settled by evaluation. *)
Ltac by_evaluation := apply (bool_decide_unpack _); vm_compute; exact I.

(** ** Strings *)

Module PyStrFacts.

Lemma app_nil (t : string) : "" +:+ t = t.
Proof. reflexivity. Qed.

Lemma app_cons (a : ascii) (s t : string) : String a s +:+ t = String a (s +:+ t).
Proof. reflexivity. Qed.

Lemma app_assoc (s t u : string) : (s +:+ t) +:+ u = s +:+ t +:+ u.
Proof.
  induction s as [| a s IH]; [reflexivity |].
  rewrite !app_cons. by rewrite IH.
Qed.

Lemma length_app (s t : string) :
  String.length (s +:+ t) = String.length s + String.length t.
Proof.
  induction s as [| a s IH]; [reflexivity |].
  rewrite app_cons. cbn [String.length]. by rewrite IH.
Qed.

Lemma app_eq_nil (s t : string) : s +:+ t = "" -> s = "" /\ t = "".
Proof. destruct s; [rewrite app_nil; by intros -> | rewrite app_cons; discriminate]. Qed.

Lemma endswith_nil (suf : string) : PyStr.endswith "" suf = String.eqb "" suf.
Proof. cbn [PyStr.endswith]. apply orb_false_r. Qed.

Lemma endswith_cons (a : ascii) (s suf : string) :
  PyStr.endswith (String a s) suf
  = String.eqb (String a s) suf || PyStr.endswith s suf.
Proof. reflexivity. Qed.

(** [endswith] decides "is a suffix of". *)
Lemma endswith_spec (s suf : string) :
  PyStr.endswith s suf = true <-> exists pre, s = pre +:+ suf.
Proof.
  induction s as [| a s IH].
  - rewrite endswith_nil, String.eqb_eq. split.
    + intros <-. by exists "".
    + intros [pre Hpre]. symmetry in Hpre. by apply app_eq_nil in Hpre as [_ ->].
  - rewrite endswith_cons, orb_true_iff, String.eqb_eq, IH. split.
    + intros [<- | [pre ->]]; [by exists "" | by exists (String a pre)].
    + intros [[| c pre] Hpre].
      * left. by rewrite app_nil in Hpre.
      * right. rewrite app_cons in Hpre. injection Hpre as _ ->. by exists pre.
Qed.

(** Whether [x +:+ y] ends with [suf] is decided by [y] alone, once [y] is
    at least as long as [suf]. *)
Lemma endswith_app (x y suf : string) :
  String.length suf <= String.length y ->
  PyStr.endswith (x +:+ y) suf = PyStr.endswith y suf.
Proof.
  intros Hlen. induction x as [| a x IH]; [reflexivity |].
  rewrite app_cons, endswith_cons, IH.
  replace (String.eqb (String a (x +:+ y)) suf) with false; [reflexivity |].
  symmetry. apply String.eqb_neq. intros Heq.
  apply (f_equal String.length) in Heq.
  cbn [String.length] in Heq. rewrite length_app in Heq. lia.
Qed.

End PyStrFacts.

(** ** Paths *)

Module OsPathFacts.

Import PyStrFacts.

Lemma join_nil (a : string) : OsPath.join a [] = a.
Proof. reflexivity. Qed.

Lemma join_cons (a b : string) (p : list string) :
  OsPath.join a (b :: p) = OsPath.join (OsPath.join_step a b) p.
Proof. reflexivity. Qed.

(** Joining one component at a time, as the Builder does, is joining them
    all at once, as the Runner does. *)
Lemma join_join (a : string) (p q : list string) :
  OsPath.join (OsPath.join a p) q = OsPath.join a (p ++ q).
Proof. unfold OsPath.join. by rewrite fold_left_app. Qed.

(** The last component always ends the joined path. *)
Lemma join_step_suffix (path b : string) :
  exists pre, OsPath.join_step path b = pre +:+ b.
Proof.
  unfold OsPath.join_step.
  destruct (PyStr.startswith b OsPath.sep); [by exists "" |].
  destruct (String.eqb path "" || PyStr.endswith path OsPath.sep).
  - by exists path.
  - exists (path +:+ OsPath.sep). by rewrite app_assoc.
Qed.

Lemma join_step_plain (path b : string) :
  path <> "" -> PyStr.endswith path OsPath.sep = false ->
  PyStr.startswith b OsPath.sep = false ->
  OsPath.join_step path b = path +:+ "/" +:+ b.
Proof.
  intros Hne Hend Hstart. unfold OsPath.join_step.
  rewrite Hstart, Hend.
  apply String.eqb_neq in Hne. by rewrite Hne.
Qed.

Lemma plain_app (x name : string) :
  plain name ->
  x +:+ "/" +:+ name <> "" /\ PyStr.endswith (x +:+ "/" +:+ name) OsPath.sep = false.
Proof.
  intros (Hne & _ & Hend). split.
  - intros Heq. apply app_eq_nil in Heq as [_ Heq]. discriminate Heq.
  - rewrite <- app_assoc, endswith_app; [done |].
    destruct name; [done | cbn; lia].
Qed.

Lemma plain_dill (method : string) :
  PyStr.startswith method OsPath.sep = false -> method <> "" ->
  PyStr.startswith (method +:+ ".dill") OsPath.sep = false.
Proof.
  destruct method as [| a method]; [done |]. intros H _.
  unfold PyStr.startswith, OsPath.sep in *. rewrite app_cons.
  cbn [String.prefix] in *.
  destruct (ascii_dec "/" a); [by destruct method | reflexivity].
Qed.

Lemma plain_backend (b : string) : b ∈ AVAILABLE_BACKENDS -> plain b.
Proof.
  unfold AVAILABLE_BACKENDS. rewrite !elem_of_union, !elem_of_singleton.
  intros H. repeat destruct H as [H | H]; subst b; by repeat split.
Qed.

Lemma plain_method (m : string) : m ∈ SUPPORTED_SIMULATION_METHODS -> plain m.
Proof.
  unfold SUPPORTED_SIMULATION_METHODS. rewrite !elem_of_union, !elem_of_singleton.
  intros H. repeat destruct H as [H | H]; subst m; by repeat split.
Qed.

Lemma builder_runner_filepath (base b m : string) :
  builder_filepath (builder_backend_dir (builder_root_dir base) b) m
  = runner_filepath base b m.
Proof. reflexivity. Qed.

Lemma runner_filepath_plain (base b m : string) :
  base <> "" -> PyStr.endswith base OsPath.sep = false ->
  plain b -> plain m ->
  runner_filepath base b m = spec_layout base b m.
Proof.
  intros Hne Hend Hb Hm. unfold runner_filepath, spec_layout.
  rewrite !join_cons, !join_nil.
  rewrite (join_step_plain base "ibm_simulators" Hne Hend eq_refl).
  destruct (plain_app base "ibm_simulators") as [Hne1 Hend1]; [by repeat split |].
  destruct Hb as (Hb0 & Hb1 & Hb2).
  rewrite (join_step_plain _ b Hne1 Hend1 Hb1).
  destruct (plain_app (base +:+ "/" +:+ "ibm_simulators") b) as [Hne2 Hend2];
    [by repeat split |].
  destruct Hm as (Hm0 & Hm1 & _).
  rewrite (join_step_plain _ (m +:+ ".dill") Hne2 Hend2 (plain_dill m Hm1 Hm0)).
  by rewrite !app_assoc.
Qed.

End OsPathFacts.

Example runner_filepath_data :
  runner_filepath "/data" "ibm_brisbane" "aer_simulator_unitary"
  = "/data/ibm_simulators/ibm_brisbane/aer_simulator_unitary.dill".
Proof. reflexivity. Qed.

Example runner_filepath_trailing_sep :
  runner_filepath "/data/" "ibm_brisbane" "aer_simulator_unitary"
  = "/data/ibm_simulators/ibm_brisbane/aer_simulator_unitary.dill".
Proof. reflexivity. Qed.

Example runner_filepath_empty_base :
  runner_filepath "" "ibm_brisbane" "aer_simulator_unitary"
  = "ibm_simulators/ibm_brisbane/aer_simulator_unitary.dill".
Proof. reflexivity. Qed.

Example replace_all_occurrences :
  PyStr.replace "a_gpu_b_gpu" "_gpu" "" = "a_b".
Proof. reflexivity. Qed.

Example replace_no_overlap : PyStr.replace "aaa" "aa" "b" = "ba".
Proof. reflexivity. Qed.

(** With an empty base path the Runner looks for the artifact relative to
    the working directory; a file at the absolute path of the layout is
    not found. *)
Example runner_empty_base_misses_layout :
  init (sdk := toy_sdk [] false) (Some "")
    {[ spec_layout "" "ibm_brisbane" "aer_simulator_unitary" := File [ x80; x01 ] ]}
    "ibm_brisbane" "aer_simulator_unitary"
  = Raise (Exn IOError
      ("Failed to load AerSimulator from "
       +:+ "ibm_simulators/ibm_brisbane/aer_simulator_unitary.dill"
       +:+ ": [Errno 2] No such file or directory: "
       +:+ "'ibm_simulators/ibm_brisbane/aer_simulator_unitary.dill'")).
Proof. vm_compute. reflexivity. Qed.

(** ** C1: the artifact path *)

(** C1, as stated, fails: the resolved path is not always
    [{base_path}/ibm_simulators/{backend_name}/{method_name}.dill].  With
    the empty base path [os.path.join] inserts no leading separator, and
    the Runner resolves a relative path. *)
Lemma artifact_path_layout_fails_for_empty_base :
  runner_filepath "" "ibm_brisbane" "aer_simulator_statevector"
  <> spec_layout "" "ibm_brisbane" "aer_simulator_statevector".
Proof. vm_compute. discriminate. Qed.

(** C1, amended: for every non-empty base path that does not end with the
    separator, and every backend and method of the allow-lists, the path
    the Runner resolves and the path the Builder writes are both
    [{base_path}/ibm_simulators/{backend_name}/{method_name}.dill], and the
    Runner loads from exactly that path. The path is a function of the
    three values, so identical arguments resolve to the identical path. *)
Theorem artifact_path_layout (base b m : string) :
  base <> "" ->
  PyStr.endswith base "/" = false ->
  b ∈ AVAILABLE_BACKENDS ->
  m ∈ SUPPORTED_SIMULATION_METHODS ->
  runner_filepath base b m = spec_layout base b m
  /\ builder_filepath (builder_backend_dir (builder_root_dir base) b) m
     = spec_layout base b m
  /\ forall (sdk : SDK) (files : gmap string node),
       init (sdk := sdk) (Some base) files b m
       = match load_simulator files (spec_layout base b m) with
         | Return sim =>
             Return {| ibm_backend_name := b;
                       simulation_method_name := m;
                       loaded_simulator := sim |}
         | Raise e => Raise e
         end.
Proof.
  intros Hne Hend Hb Hm.
  pose proof (OsPathFacts.runner_filepath_plain base b m Hne Hend
                (OsPathFacts.plain_backend b Hb) (OsPathFacts.plain_method m Hm)) as Hpath.
  split; [exact Hpath |]. split.
  - by rewrite OsPathFacts.builder_runner_filepath.
  - intros sdk files. rewrite <- Hpath.
    unfold init, set_ibm_backend, set_simulator.
    rewrite decide_False by (intros Hn; by apply Hn).
    rewrite decide_False by (intros Hn; by apply Hn).
    change (OsPath.join (OsPath.join base [ "ibm_simulators"; b ]) [ m +:+ ".dill" ])
      with (runner_filepath base b m).
    by destruct (load_simulator files (runner_filepath base b m)).
Qed.

Lemma artifact_path_layout_witness :
  runner_filepath "/data" "ibm_sherbrooke" "aer_simulator_superop"
  = spec_layout "/data" "ibm_sherbrooke" "aer_simulator_superop".
Proof.
  apply (artifact_path_layout "/data" "ibm_sherbrooke" "aer_simulator_superop").
  - discriminate.
  - reflexivity.
  - by_evaluation.
  - by_evaluation.
Defined.

(** What [os.path.join] does with the other base paths. *)
Lemma runner_filepath_sep_base (base b m : string) :
  PyStr.endswith base "/" = true ->
  b ∈ AVAILABLE_BACKENDS ->
  m ∈ SUPPORTED_SIMULATION_METHODS ->
  runner_filepath base b m
  = base +:+ "ibm_simulators/" +:+ b +:+ "/" +:+ m +:+ ".dill".
Proof.
  intros Hend Hb%OsPathFacts.plain_backend Hm%OsPathFacts.plain_method.
  destruct Hb as (Hb0 & Hb1 & Hb2). destruct Hm as (Hm0 & Hm1 & _).
  unfold runner_filepath. rewrite !OsPathFacts.join_cons, !OsPathFacts.join_nil.
  assert (OsPath.join_step base "ibm_simulators" = base +:+ "ibm_simulators") as ->.
  { unfold OsPath.join_step. cbn [PyStr.startswith]. unfold OsPath.sep.
    rewrite Hend, orb_true_r. reflexivity. }
  rewrite (OsPathFacts.join_step_plain _ b); [| | | exact Hb1].
  - rewrite OsPathFacts.join_step_plain.
    + by rewrite !PyStrFacts.app_assoc.
    + intros Heq. by apply PyStrFacts.app_eq_nil in Heq as [_ Heq].
    + rewrite <- PyStrFacts.app_assoc, PyStrFacts.endswith_app; [done |].
      destruct b; [done | cbn; lia].
    + by apply OsPathFacts.plain_dill.
  - intros Heq. by apply PyStrFacts.app_eq_nil in Heq as [_ Heq].
  - rewrite PyStrFacts.endswith_app; [reflexivity | cbn; lia].
Qed.

Lemma runner_filepath_no_base (b m : string) :
  b ∈ AVAILABLE_BACKENDS ->
  m ∈ SUPPORTED_SIMULATION_METHODS ->
  runner_filepath "" b m = "ibm_simulators/" +:+ b +:+ "/" +:+ m +:+ ".dill".
Proof.
  intros Hb%OsPathFacts.plain_backend Hm%OsPathFacts.plain_method.
  destruct Hb as (Hb0 & Hb1 & Hb2). destruct Hm as (Hm0 & Hm1 & _).
  unfold runner_filepath. rewrite !OsPathFacts.join_cons, !OsPathFacts.join_nil.
  change (OsPath.join_step "" "ibm_simulators") with ("" +:+ "ibm_simulators").
  rewrite (OsPathFacts.join_step_plain _ b); [| done | done | exact Hb1].
  rewrite OsPathFacts.join_step_plain.
  - by rewrite !PyStrFacts.app_assoc.
  - intros Heq. by apply PyStrFacts.app_eq_nil in Heq as [_ Heq].
  - rewrite <- PyStrFacts.app_assoc, PyStrFacts.endswith_app; [done |].
    destruct b; [done | cbn; lia].
  - by apply OsPathFacts.plain_dill.
Qed.

(** ** C10: one vocabulary for the Builder and the Runner *)

Lemma target_backends_available (b : string) :
  b ∈ target_backends <-> b ∈ AVAILABLE_BACKENDS.
Proof.
  assert (list_to_set target_backends = AVAILABLE_BACKENDS) as <-
    by (vm_compute; reflexivity).
  by rewrite elem_of_list_to_set.
Qed.

Lemma simulation_methods_supported (m : string) :
  m ∈ simulation_methods <-> m ∈ SUPPORTED_SIMULATION_METHODS.
Proof.
  assert (list_to_set simulation_methods = SUPPORTED_SIMULATION_METHODS) as <-
    by (vm_compute; reflexivity).
  by rewrite elem_of_list_to_set.
Qed.

(** A construction that gets past the two validations is a load from the
    Builder's file for that backend and method. *)
Lemma init_valid_names {sdk : SDK} (base : string) (files : gmap string node)
    (b m : string) :
  b ∈ AVAILABLE_BACKENDS ->
  m ∈ SUPPORTED_SIMULATION_METHODS ->
  init (sdk := sdk) (Some base) files b m
  = match load_simulator files (runner_filepath base b m) with
    | Return sim =>
        Return {| ibm_backend_name := b;
                  simulation_method_name := m;
                  loaded_simulator := sim |}
    | Raise e => Raise e
    end.
Proof.
  intros Hb Hm. unfold init, set_ibm_backend, set_simulator.
  rewrite decide_False by (intros Hn; by apply Hn).
  rewrite decide_False by (intros Hn; by apply Hn).
  change (OsPath.join (OsPath.join base [ "ibm_simulators"; b ]) [ m +:+ ".dill" ])
    with (runner_filepath base b m).
  by destruct (load_simulator files (runner_filepath base b m)).
Qed.

(** Whatever the base path, a construction that succeeds was given names
    of the two allow-lists, and returns them. *)
Lemma init_returns_valid {sdk : SDK} (base : option string) (files : gmap string node)
    (b m : string) (self : QiskitQuantumSimulator) :
  init (sdk := sdk) base files b m = Return self ->
  b ∈ AVAILABLE_BACKENDS /\ m ∈ SUPPORTED_SIMULATION_METHODS
  /\ ibm_backend self = b /\ simulation_method self = m
  /\ exists root,
       base = Some root
       /\ load_simulator files (runner_filepath root b m) = Return (simulator self).
Proof.
  unfold init, set_ibm_backend, set_simulator.
  destruct (decide (b ∉ AVAILABLE_BACKENDS)) as [| Hb]; [discriminate |].
  destruct (decide (m ∉ SUPPORTED_SIMULATION_METHODS)) as [| Hm]; [discriminate |].
  destruct base as [root |]; [| discriminate].
  change (OsPath.join (OsPath.join root [ "ibm_simulators"; b ]) [ m +:+ ".dill" ])
    with (runner_filepath root b m).
  destruct (load_simulator files (runner_filepath root b m)) as [sim |] eqn:Hload;
    [| discriminate].
  intros [= <-]. repeat split.
  - by apply dec_stable.
  - by apply dec_stable.
  - by exists root.
Qed.

(** C10: the methods the Runner accepts are the ten names the Builder
    saves, the backends it accepts are the two the Builder targets, and
    for every such pair the Builder's file path is the path a Runner
    construction with these names loads from; conversely a Runner
    construction succeeds only for a pair the Builder writes. *)
Theorem allow_lists_agree :
  list_to_set simulation_methods = SUPPORTED_SIMULATION_METHODS
  /\ list_to_set target_backends = AVAILABLE_BACKENDS
  /\ NoDup simulation_methods /\ length simulation_methods = 10
  /\ NoDup target_backends /\ length target_backends = 2
  /\ size SUPPORTED_SIMULATION_METHODS = 10 /\ size AVAILABLE_BACKENDS = 2
  /\ (forall (sdk : SDK) (base : string) (files : gmap string node) (b m : string),
        b ∈ target_backends ->
        m ∈ simulation_methods ->
        init (sdk := sdk) (Some base) files b m
        = match load_simulator files
                  (builder_filepath (builder_backend_dir (builder_root_dir base) b) m) with
          | Return sim =>
              Return {| ibm_backend_name := b;
                        simulation_method_name := m;
                        loaded_simulator := sim |}
          | Raise e => Raise e
          end)
  /\ (forall (sdk : SDK) (base : option string) (files : gmap string node) (b m : string)
        (self : QiskitQuantumSimulator),
        init (sdk := sdk) base files b m = Return self ->
        b ∈ target_backends /\ m ∈ simulation_methods).
Proof.
  split; [vm_compute; reflexivity |]. split; [vm_compute; reflexivity |].
  split; [apply (bool_decide_unpack _); vm_compute; exact I |]. split; [reflexivity |].
  split; [apply (bool_decide_unpack _); vm_compute; exact I |]. split; [reflexivity |].
  split; [vm_compute; reflexivity |]. split; [vm_compute; reflexivity |]. split.
  - intros sdk base files b m Hb%target_backends_available Hm%simulation_methods_supported.
    rewrite OsPathFacts.builder_runner_filepath. by apply init_valid_names.
  - intros sdk base files b m self Hinit.
    apply init_returns_valid in Hinit as (Hb & Hm & _).
    split; [by apply target_backends_available | by apply simulation_methods_supported].
Qed.

(** ** C7: the options derived from a method name *)

Lemma device_gpu (m : string) :
  device m = "GPU" <-> exists stem, m = stem +:+ "_gpu".
Proof.
  rewrite <- PyStrFacts.endswith_spec. unfold device.
  destruct (PyStr.endswith m "_gpu"); split; (done || discriminate).
Qed.

Lemma device_cpu (m : string) :
  device m = "CPU" <-> ~ exists stem, m = stem +:+ "_gpu".
Proof.
  rewrite <- PyStrFacts.endswith_spec. unfold device.
  destruct (PyStr.endswith m "_gpu"); split; (done || discriminate).
Qed.

(** C7: for each of the ten method names, the device is ["GPU"] exactly
    when the name ends with [_gpu] and ["CPU"] otherwise; the base method
    is the name without its [aer_simulator_] prefix and its [_gpu] suffix;
    and the simulator built from the backend is configured with exactly
    this base method and this device. *)
Theorem builder_derives_options (m : string) :
  m ∈ simulation_methods ->
  (device m = "GPU" <-> exists stem, m = stem +:+ "_gpu")
  /\ (device m = "CPU" <-> ~ exists stem, m = stem +:+ "_gpu")
  /\ base_method m = spec_base_method m
  /\ m = "aer_simulator_" +:+ spec_base_method m
         +:+ (if String.eqb (device m) "GPU" then "_gpu" else "")
  /\ forall (sdk : SDK) (backend : Backend sdk),
       configured_simulator backend m
       = (simulator <- call (AerSimulator_from_backend sdk backend) ;;
          call (set_options sdk simulator (spec_base_method m) (device m))).
Proof.
  intros Hm. split; [apply device_gpu |]. split; [apply device_cpu |].
  unfold simulation_methods in Hm.
  repeat (apply elem_of_cons in Hm as [-> | Hm]); try (by apply elem_of_nil in Hm);
    (split; [reflexivity |]; split; [reflexivity |]; intros sdk backend; reflexivity).
Qed.

Lemma builder_derives_options_witness :
  base_method "aer_simulator_density_matrix_gpu"
  = spec_base_method "aer_simulator_density_matrix_gpu".
Proof.
  apply (builder_derives_options "aer_simulator_density_matrix_gpu").
  by_evaluation.
Defined.

Example derived_options_table :
  map (fun m => (m, base_method m, device m)) simulation_methods
  = [ ("aer_simulator_statevector", "statevector", "CPU");
      ("aer_simulator_density_matrix", "density_matrix", "CPU");
      ("aer_simulator_stabilizer", "stabilizer", "CPU");
      ("aer_simulator_matrix_product_state", "matrix_product_state", "CPU");
      ("aer_simulator_extended_stabilizer", "extended_stabilizer", "CPU");
      ("aer_simulator_unitary", "unitary", "CPU");
      ("aer_simulator_superop", "superop", "CPU");
      ("aer_simulator_statevector_gpu", "statevector", "GPU");
      ("aer_simulator_density_matrix_gpu", "density_matrix", "GPU");
      ("aer_simulator_unitary_gpu", "unitary", "GPU") ].
Proof. reflexivity. Qed.

(** Outside the ten names the replacement is not a stripping: every
    occurrence goes, wherever it stands. *)
Example base_method_inner_occurrence :
  base_method "my_gpu_aer_simulator_x" = "my_x"
  /\ spec_base_method "my_gpu_aer_simulator_x" = "my_gpu_aer_simulator_x".
Proof. split; reflexivity. Qed.

(** ** The Runner's construction *)

Section Runner.

Context {sdk : SDK}.

Implicit Types (base : option string) (files : gmap string node).
Implicit Types (b m root filepath : string) (obj : PyObj sdk).

Lemma set_ibm_backend_unsupported b :
  b ∉ AVAILABLE_BACKENDS ->
  set_ibm_backend (sdk := sdk) b
  = Raise (Exn ValueError
             ("Unsupported IBM backend: '" +:+ b +:+ "'." +:+ PyStr.nl
              +:+ "Available backends: " +:+ repr_set sdk AVAILABLE_BACKENDS)).
Proof. intros Hb. unfold set_ibm_backend. by rewrite decide_True. Qed.

Lemma set_ibm_backend_supported b :
  b ∈ AVAILABLE_BACKENDS -> set_ibm_backend (sdk := sdk) b = Return b.
Proof.
  intros Hb. unfold set_ibm_backend. rewrite decide_False; [done |].
  intros Hn. by apply Hn.
Qed.

Lemma set_simulator_unsupported base files b m :
  m ∉ SUPPORTED_SIMULATION_METHODS ->
  set_simulator (sdk := sdk) base files b m
  = Raise (Exn ValueError
             ("Unsupported simulation method: '" +:+ m +:+ "'." +:+ PyStr.nl
              +:+ "Supported methods: " +:+ repr_set sdk SUPPORTED_SIMULATION_METHODS)).
Proof. intros Hm. unfold set_simulator. by rewrite decide_True. Qed.

(** [__load_simulator] either returns an object that the file holds and
    that has a [run] attribute, or raises an [IOError] about the path. *)
Lemma load_simulator_cases files filepath :
  (exists obj, load_simulator files filepath = Return obj /\ loadable files filepath obj)
  \/ ((forall obj, ~ loadable files filepath obj)
      /\ exists why,
           load_simulator (sdk := sdk) files filepath
           = Raise (Exn IOError
                      ("Failed to load AerSimulator from " +:+ filepath +:+ ": " +:+ why))).
Proof.
  unfold load_simulator, loadable, Os.open_rb.
  destruct (files !! filepath) as [[| content] |] eqn:Hfile.
  - right. split; [| by eexists]. intros obj (c & [=] & _).
  - destruct (dill_load sdk content) as [sim | e] eqn:Hload.
    + destruct (hasattr sdk sim "run") eqn:Hrun; cbn [negb].
      * left. exists sim. split; [done |]. by exists content.
      * right. split; [| by eexists].
        intros obj (c & [= <-] & Hobj & Hhas). congruence.
    + right. split; [| by eexists].
      intros obj (c & [= <-] & Hobj & _). congruence.
  - right. split; [intros obj (c & [=] & _) |].
    destruct (Os.rejected _ files); by eexists.
Qed.

Lemma loadable_unique files filepath obj obj' :
  loadable files filepath obj -> loadable files filepath obj' -> obj = obj'.
Proof. intros (c & Hc & Hobj & _) (c' & Hc' & Hobj' & _). congruence. Qed.

Lemma load_simulator_loadable files filepath obj :
  loadable files filepath obj -> load_simulator files filepath = Return obj.
Proof.
  intros Hobj. destruct (load_simulator_cases files filepath)
    as [(obj' & -> & Hobj') | [Hnone _]].
  - f_equal. by eapply loadable_unique.
  - by destruct (Hnone obj).
Qed.

(** C2: for every backend name outside the allow-list, whatever the method,
    the base path and the file system, the construction raises a
    [ValueError] whose message quotes the backend name. *)
Theorem unsupported_backend_rejected base files b m :
  b ∉ AVAILABLE_BACKENDS ->
  exists rest,
    init (sdk := sdk) base files b m
    = Raise (Exn ValueError ("Unsupported IBM backend: '" +:+ b +:+ "'" +:+ rest)).
Proof.
  intros Hb. unfold init. rewrite (set_ibm_backend_unsupported b Hb).
  by exists ("." +:+ PyStr.nl +:+ "Available backends: "
             +:+ repr_set sdk AVAILABLE_BACKENDS).
Qed.

(** C3: for every method name outside the allow-list the construction
    raises a [ValueError], whether the backend name is valid or not: with a
    valid backend the error is the one about the method, with an invalid
    backend it is the one about the backend, raised first. *)
Theorem unsupported_method_rejected base files b m :
  m ∉ SUPPORTED_SIMULATION_METHODS ->
  exists msg,
    init (sdk := sdk) base files b m = Raise (Exn ValueError msg)
    /\ (b ∈ AVAILABLE_BACKENDS ->
        msg = "Unsupported simulation method: '" +:+ m +:+ "'." +:+ PyStr.nl
              +:+ "Supported methods: " +:+ repr_set sdk SUPPORTED_SIMULATION_METHODS)
    /\ (b ∉ AVAILABLE_BACKENDS ->
        msg = "Unsupported IBM backend: '" +:+ b +:+ "'." +:+ PyStr.nl
              +:+ "Available backends: " +:+ repr_set sdk AVAILABLE_BACKENDS).
Proof.
  intros Hm. unfold init.
  destruct (decide (b ∈ AVAILABLE_BACKENDS)) as [Hb | Hb].
  - rewrite (set_ibm_backend_supported b Hb), (set_simulator_unsupported _ _ _ _ Hm).
    eexists. split; [reflexivity |]. split; [done |]. intros Hn. by destruct Hn.
  - rewrite (set_ibm_backend_unsupported b Hb).
    eexists. split; [reflexivity |]. split; [by intros Hb' | done].
Qed.

(** C4: for every valid backend and method, if the file at the resolved
    path is not one the Runner accepts (it is missing, is not a regular
    file, fails to deserialize, or deserializes to an object without a
    [run] attribute) the construction raises an [IOError] whose message
    contains the resolved path; and a construction that succeeds has
    resolved a path and loaded from it an object with a [run] attribute. *)
Theorem unloadable_artifact_rejected base files b m :
  b ∈ AVAILABLE_BACKENDS ->
  m ∈ SUPPORTED_SIMULATION_METHODS ->
  (forall root,
     base = Some root ->
     (forall obj, ~ loadable files (runner_filepath root b m) obj) ->
     exists why,
       init (sdk := sdk) base files b m
       = Raise (Exn IOError
                  ("Failed to load AerSimulator from " +:+ runner_filepath root b m
                   +:+ ": " +:+ why)))
  /\ (forall self,
        init (sdk := sdk) base files b m = Return self ->
        exists root,
          base = Some root
          /\ loadable files (runner_filepath root b m) (simulator self)).
Proof.
  intros Hb Hm. split.
  - intros root -> Hnone. rewrite (init_valid_names root files b m Hb Hm).
    destruct (load_simulator_cases files (runner_filepath root b m))
      as [(obj & _ & Hobj) | [_ [why ->]]]; [by destruct (Hnone obj) | by exists why].
  - intros self Hinit.
    apply init_returns_valid in Hinit as (_ & _ & _ & _ & root & -> & Hload).
    exists root. split; [done |].
    destruct (load_simulator_cases files (runner_filepath root b m))
      as [(obj & Hobj & Hloadable) | [_ [why Hwhy]]]; congruence.
Qed.

(** The three ways of failing, one at a time. *)
Lemma missing_artifact_rejected root files b m :
  b ∈ AVAILABLE_BACKENDS ->
  m ∈ SUPPORTED_SIMULATION_METHODS ->
  files !! runner_filepath root b m = None ->
  Os.rejected (Os.ancestors (runner_filepath root b m) ++ [ runner_filepath root b m ])
    files = None ->
  init (sdk := sdk) (Some root) files b m
  = Raise (Exn IOError
             ("Failed to load AerSimulator from " +:+ runner_filepath root b m
              +:+ ": [Errno 2] No such file or directory: '"
              +:+ runner_filepath root b m +:+ "'")).
Proof.
  intros Hb Hm Hfile Hway. rewrite (init_valid_names root files b m Hb Hm).
  unfold load_simulator, Os.open_rb. by rewrite Hfile, Hway.
Qed.

(** A regular file on the way to the artifact is another way of missing it. *)
Example artifact_below_a_file_rejected :
  init (sdk := toy_sdk [] false) (Some "/data") {[ "/data" := File [] ]}
    "ibm_brisbane" "aer_simulator_unitary"
  = Raise (Exn IOError
      ("Failed to load AerSimulator from "
       +:+ "/data/ibm_simulators/ibm_brisbane/aer_simulator_unitary.dill"
       +:+ ": [Errno 20] Not a directory: "
       +:+ "'/data/ibm_simulators/ibm_brisbane/aer_simulator_unitary.dill'")).
Proof. vm_compute. reflexivity. Qed.

Lemma corrupt_artifact_rejected root files b m content e :
  b ∈ AVAILABLE_BACKENDS ->
  m ∈ SUPPORTED_SIMULATION_METHODS ->
  files !! runner_filepath root b m = Some (File content) ->
  dill_load sdk content = Raise e ->
  init (sdk := sdk) (Some root) files b m
  = Raise (Exn IOError
             ("Failed to load AerSimulator from " +:+ runner_filepath root b m
              +:+ ": " +:+ exn_str e)).
Proof.
  intros Hb Hm Hfile Hload. rewrite (init_valid_names root files b m Hb Hm).
  unfold load_simulator, Os.open_rb. by rewrite Hfile, Hload.
Qed.

Lemma artifact_without_run_rejected root files b m content obj :
  b ∈ AVAILABLE_BACKENDS ->
  m ∈ SUPPORTED_SIMULATION_METHODS ->
  files !! runner_filepath root b m = Some (File content) ->
  dill_load sdk content = Return obj ->
  hasattr sdk obj "run" = false ->
  init (sdk := sdk) (Some root) files b m
  = Raise (Exn IOError
             ("Failed to load AerSimulator from " +:+ runner_filepath root b m
              +:+ ": Loaded object is not a valid AerSimulator.")).
Proof.
  intros Hb Hm Hfile Hload Hrun. rewrite (init_valid_names root files b m Hb Hm).
  unfold load_simulator, Os.open_rb. by rewrite Hfile, Hload, Hrun.
Qed.

(** Without a base path in the environment no path is resolved: the
    construction with valid names raises the [TypeError] of [os.path.join]. *)
Lemma unset_base_path_rejected files b m :
  b ∈ AVAILABLE_BACKENDS ->
  m ∈ SUPPORTED_SIMULATION_METHODS ->
  init (sdk := sdk) None files b m
  = Raise (Exn TypeError "expected str, bytes or os.PathLike object, not NoneType").
Proof.
  intros Hb Hm. unfold init, set_simulator.
  rewrite (set_ibm_backend_supported b Hb).
  rewrite decide_False; [done |]. intros Hn. by apply Hn.
Qed.

(** C9: for every valid backend and method whose artifact file exists and
    deserializes to an object with a [run] attribute, the construction
    succeeds, and the accessors of the constructed Runner return the
    backend name and the method name that were passed, the loaded object,
    and the two complete allow-lists. *)
Theorem construction_succeeds root files b m obj :
  b ∈ AVAILABLE_BACKENDS ->
  m ∈ SUPPORTED_SIMULATION_METHODS ->
  loadable files (runner_filepath root b m) obj ->
  exists self,
    init (sdk := sdk) (Some root) files b m = Return self
    /\ ibm_backend self = b
    /\ simulation_method self = m
    /\ simulator self = obj
    /\ available_backends self = AVAILABLE_BACKENDS
    /\ available_simulation_methods self = SUPPORTED_SIMULATION_METHODS.
Proof.
  intros Hb Hm Hobj. rewrite (init_valid_names root files b m Hb Hm).
  rewrite (load_simulator_loadable _ _ _ Hobj).
  eexists. split; [reflexivity |]. by repeat split.
Qed.

(** ** C8: running a circuit *)

(** C8: [run] first transpiles the circuit for the loaded simulator at
    optimization level 1, as [transpile_circuit] does; then, in the state
    the transpiler left, binds a sampler to the loaded simulator; then
    submits the list holding just the transpiled circuit, and its result,
    the job handle or the exception, is the result of the sampler's [run]. *)
Theorem run_transpiles_then_samples (self : QiskitQuantumSimulator)
    (circuit transpiled : Circuit sdk) (sampler : Sampler sdk) (e0 e1 e2 : Env sdk) :
  transpile sdk circuit (simulator self) 1 e0 = (e1, Return transpiled) ->
  SamplerV2 sdk (simulator self) e1 = (e2, Return sampler) ->
  transpile_circuit self circuit e0 = (e1, Return transpiled)
  /\ run self circuit e0 = sampler_run sdk sampler [ transpiled ] e2.
Proof.
  intros Htranspile Hsampler. split; [exact Htranspile |].
  unfold run, bind, transpile_circuit. unfold simulator in *.
  rewrite Htranspile, Hsampler. by destruct (sampler_run sdk sampler [ transpiled ] e2) as [? []].
Qed.

(** When the transpiler raises, [run] raises the same exception and no
    sampler is made; when the sampler cannot be made, nothing is submitted. *)
Lemma run_transpile_raises (self : QiskitQuantumSimulator) (circuit : Circuit sdk)
    (e0 e1 : Env sdk) (x : exn) :
  transpile sdk circuit (simulator self) 1 e0 = (e1, Raise x) ->
  run self circuit e0 = (e1, Raise x).
Proof.
  intros Htranspile. unfold run, bind, transpile_circuit. unfold simulator in *.
  by rewrite Htranspile.
Qed.

Lemma run_sampler_raises (self : QiskitQuantumSimulator)
    (circuit transpiled : Circuit sdk) (e0 e1 e2 : Env sdk) (x : exn) :
  transpile sdk circuit (simulator self) 1 e0 = (e1, Return transpiled) ->
  SamplerV2 sdk (simulator self) e1 = (e2, Raise x) ->
  run self circuit e0 = (e2, Raise x).
Proof.
  intros Htranspile Hsampler. unfold run, bind, transpile_circuit. unfold simulator in *.
  by rewrite Htranspile, Hsampler.
Qed.

End Runner.

(** ** Relations kept along a computation *)

Lemma bind_steps {S A B} (R : S -> S -> Prop) (m : M S A) (k : A -> M S B) :
  (forall s1 s2 s3, R s1 s2 -> R s2 s3 -> R s1 s3) ->
  (forall s, R s (fst (m s))) ->
  (forall a s, R s (fst (k a s))) ->
  forall s, R s (fst (bind m k s)).
Proof.
  intros Htrans Hm Hk s. unfold bind. specialize (Hm s).
  destruct (m s) as [s1 [a | e]]; cbn [fst] in *; [| exact Hm].
  exact (Htrans _ _ _ Hm (Hk a s1)).
Qed.

Lemma try_except_steps {S A} (R : S -> S -> Prop) (body : M S A)
    (handler : exn -> M S A) :
  (forall s1 s2 s3, R s1 s2 -> R s2 s3 -> R s1 s3) ->
  (forall s, R s (fst (body s))) ->
  (forall e s, R s (fst (handler e s))) ->
  forall s, R s (fst (try_except body handler s)).
Proof.
  intros Htrans Hbody Hhandler s. unfold try_except. specialize (Hbody s).
  destruct (body s) as [s1 [a | e]]; cbn [fst] in *; [exact Hbody |].
  exact (Htrans _ _ _ Hbody (Hhandler e s1)).
Qed.

Lemma for_each_steps {S A} (R : S -> S -> Prop) (xs : list A) (body : A -> M S unit) :
  (forall s, R s s) ->
  (forall s1 s2 s3, R s1 s2 -> R s2 s3 -> R s1 s3) ->
  (forall x s, R s (fst (body x s))) ->
  forall s, R s (fst (for_each xs body s)).
Proof.
  intros Hrefl Htrans Hbody. induction xs as [| x xs IH]; intros s.
  - apply Hrefl.
  - cbn [for_each]. apply bind_steps; [exact Htrans | apply Hbody | intros _; apply IH].
Qed.


(** A loop whose body never raises runs the body on every element, in
    order, each time from the state the previous element left. *)
Lemma for_each_returns {S A} (xs : list A) (body : A -> M S unit) :
  (forall x s, snd (body x s) = Return tt) ->
  forall s,
    for_each xs body s = (foldl (fun s0 x => fst (body x s0)) s xs, Return tt).
Proof.
  intros Hbody. induction xs as [| x xs IH]; intros s; [reflexivity |].
  cbn [for_each]. unfold bind. specialize (Hbody x s).
  destruct (body x s) as [s1 r] eqn:Hstep. cbn [snd] in Hbody. subst r.
  rewrite IH. simpl foldl. by rewrite Hstep.
Qed.

(** ** The Builder's bulk save *)

Section Builder.

Context {sdk : SDK}.

Implicit Types (w : @World sdk) (verbose : bool).

Lemma builder_step_refl verbose w : builder_step verbose w w.
Proof.
  split; [intros p c Hp; left; by exists c |].
  exists []. by rewrite app_nil_r.
Qed.

Lemma builder_step_trans verbose w1 w2 w3 :
  builder_step verbose w1 w2 -> builder_step verbose w2 w3 -> builder_step verbose w1 w3.
Proof.
  intros [Hfs12 (l12 & Hout12 & Hq12)] [Hfs23 (l23 & Hout23 & Hq23)]. split.
  - intros p c Hp. destruct (Hfs23 p c Hp) as [[c0 Hc0] | Hdill]; [| by right].
    by apply (Hfs12 p c0).
  - exists (l12 ++ l23). split.
    + by rewrite Hout23, Hout12, <- app_assoc.
    + intros Hv. by rewrite (Hq12 Hv), (Hq23 Hv).
Qed.

(** A call to a collaborator touches neither the files nor the output. *)
Lemma call_world {A} (f : Env sdk -> Env sdk * result A) w :
  call f w = ({| env := fst (f (env w)); fs := fs w; stdout := stdout w |},
              snd (f (env w))).
Proof. unfold call. by destruct (f (env w)). Qed.

Lemma configured_simulator_world backend m w w1 (r : result (PyObj sdk)) :
  configured_simulator backend m w = (w1, r) ->
  fs w1 = fs w /\ stdout w1 = stdout w.
Proof.
  unfold configured_simulator, bind. rewrite call_world.
  destruct (snd (AerSimulator_from_backend sdk backend (env w))) as [sim | x].
  - rewrite call_world. by intros [= <- _].
  - by intros [= <- _].
Qed.

Lemma when_print verbose line w :
  when verbose (print line) w
  = ({| env := env w; fs := fs w;
        stdout := stdout w ++ (if verbose then [ line ] else []) |}, Return tt).
Proof. destruct verbose; cbn; [done |]. rewrite app_nil_r. by destruct w. Qed.

(** The file written ends in [.dill], whatever the directory. *)
Lemma builder_filepath_dill (backend_dir m : string) :
  PyStr.endswith (builder_filepath backend_dir m) ".dill" = true.
Proof.
  unfold builder_filepath. rewrite OsPathFacts.join_cons, OsPathFacts.join_nil.
  destruct (OsPathFacts.join_step_suffix backend_dir (m +:+ ".dill")) as [pre ->].
  apply PyStrFacts.endswith_spec. exists (pre +:+ m). by rewrite PyStrFacts.app_assoc.
Qed.

Lemma open_wb_dump_world filepath (sim : PyObj sdk) w :
  exists w' r,
    open_wb_dump filepath sim w = (w', r)
    /\ stdout w' = stdout w
    /\ (fs w' = fs w \/ exists c, fs w' = <[filepath := File c]> (fs w)).
Proof.
  unfold open_wb_dump, Os.open_wb.
  assert (forall c c0 : list byte,
            <[filepath := File c]> (<[filepath := File c0]> (fs w))
            = <[filepath := File c]> (fs w)) as Hins
    by (intros; apply insert_insert_eq).
  destruct (fs w !! filepath) as [[| c0] |].
  - exists w. eexists. split; [reflexivity |]. by split; [| left].
  - destruct (dill_dump sdk sim (env w)) as [e' [written [x |]]];
      do 2 eexists; (split; [reflexivity |]); cbn; rewrite Hins; eauto.
  - destruct (dill_dump sdk sim (env w)) as [e' [written [x |]]];
      do 2 eexists; (split; [reflexivity |]); cbn; rewrite Hins; eauto.
Qed.

(** The body of the loop over the methods never raises. *)
Lemma save_method_returns verbose backend (backend_dir backend_name m : string) w :
  exists w',
    save_method verbose backend backend_dir backend_name m w = (w', Return tt)
    /\ builder_step verbose w w'.
Proof.
  unfold save_method, try_except, save_method_try, save_method_except, bind.
  destruct (configured_simulator backend m w) as [w1 [sim | x]] eqn:Hconf;
    apply configured_simulator_world in Hconf as [Hfs1 Hout1].
  - change (OsPath.join backend_dir [ m +:+ ".dill" ])
      with (builder_filepath backend_dir m).
    destruct (open_wb_dump_world (builder_filepath backend_dir m) sim w1)
      as (w2 & r & -> & Hout2 & Hfs2).
    assert (forall p c, fs w2 !! p = Some (File c) ->
              (exists c0, fs w !! p = Some (File c0)) \/ PyStr.endswith p ".dill" = true)
      as Hfiles.
    { intros p c Hp. destruct Hfs2 as [Hfs2 | [c2 Hfs2]]; rewrite Hfs2 in Hp.
      - left. exists c. by rewrite <- Hfs1.
      - destruct (decide (builder_filepath backend_dir m = p)) as [<- | Hne].
        + right. apply builder_filepath_dill.
        + rewrite lookup_insert_ne in Hp by done. left. exists c. by rewrite <- Hfs1. }
    destruct r as [[] | x]; rewrite when_print; eexists; (split; [reflexivity |]);
      (split; [exact Hfiles |]); cbn;
      rewrite Hout2, Hout1; eexists; (split; [reflexivity |]); by intros ->.
  - rewrite when_print. eexists. split; [reflexivity |]. split; cbn.
    + intros p c Hp. left. exists c. by rewrite <- Hfs1.
    + rewrite Hout1. eexists. split; [reflexivity |]. by intros ->.
Qed.

Lemma save_methods_return verbose backend (backend_dir backend_name : string)
    (methods : list string) w :
  exists w',
    for_each methods (save_method verbose backend backend_dir backend_name) w
    = (w', Return tt)
    /\ builder_step verbose w w'.
Proof.
  revert w. induction methods as [| m methods IH]; intros w.
  - exists w. split; [reflexivity | apply builder_step_refl].
  - cbn [for_each]. unfold bind.
    destruct (save_method_returns verbose backend backend_dir backend_name m w)
      as (w1 & -> & Hstep1).
    destruct (IH w1) as (w2 & -> & Hstep2).
    exists w2. split; [reflexivity | by eapply builder_step_trans].
Qed.

(** Every method of the list is attempted, in order, from the world the
    previous one left, whatever became of the previous ones. *)
Lemma save_methods_all verbose backend (backend_dir backend_name : string)
    (methods : list string) w :
  for_each methods (save_method verbose backend backend_dir backend_name) w
  = (foldl (fun w0 m => fst (save_method verbose backend backend_dir backend_name m w0))
       w methods,
     Return tt).
Proof.
  apply for_each_returns. intros m w0.
  by destruct (save_method_returns verbose backend backend_dir backend_name m w0)
    as (w1 & -> & _).
Qed.

(** [os.makedirs] either succeeds, and then no regular file stood at the
    path and the directory is there, or raises and changes nothing. *)
Lemma makedirs_cases (path : string) w :
  (makedirs path w
   = ({| env := env w; fs := <[path := Dir]> (fs w); stdout := stdout w |}, Return tt)
   /\ forall c, fs w !! path <> Some (File c))
  \/ exists x, makedirs path w = (w, Raise x).
Proof.
  unfold makedirs, Os.makedirs_exist_ok.
  destruct (fs w !! path) as [[| c] |].
  - left. by split.
  - right. by eexists.
  - destruct (Os.has_entry_below path (fs w)); [left; by split |].
    destruct (Os.rejected _ (fs w)); [right; by eexists |].
    destruct (os_refuses sdk path); [right; by eexists | left; by split].
Qed.

(** A directory that is not listed but has an entry below it exists:
    [os.makedirs] has nothing to create and nothing to be refused. *)
Lemma makedirs_existing (path entry : string) (n : node) w :
  (forall c, fs w !! path <> Some (File c)) ->
  fs w !! entry = Some n ->
  Os.below path entry = true ->
  makedirs path w
  = ({| env := env w; fs := <[path := Dir]> (fs w); stdout := stdout w |}, Return tt).
Proof.
  intros Hpath Hentry Hbelow. unfold makedirs, Os.makedirs_exist_ok.
  destruct (fs w !! path) as [[| c] |]; [reflexivity | by destruct (Hpath c) |].
  replace (Os.has_entry_below path (fs w)) with true; [reflexivity |].
  symmetry. unfold Os.has_entry_below. apply existsb_exists.
  exists (entry, n). split; [| exact Hbelow].
  apply list_elem_of_In. by apply elem_of_map_to_list.
Qed.





(** A refused handle is skipped: nothing changes but the collaborators'
    state and, with [verbose], the output. *)
Lemma save_backend_skips verbose service (root_dir name : string) w e' x :
  service_backend sdk service name (env w) = (e', Raise x) ->
  save_backend verbose service root_dir name w
  = ({| env := e'; fs := fs w;
        stdout := stdout w ++ (if verbose then [ backend_failure_line name x ] else []) |},
     Return tt).
Proof.
  intros Hcall. unfold save_backend, load_backend, try_except, bind.
  rewrite call_world, Hcall. cbn [fst snd]. by rewrite when_print.
Qed.


(** A served backend whose directory is there has all its methods
    attempted. *)
Lemma save_backend_serves verbose service (root_dir name : string) w
    (e' : Env sdk) (backend : Backend sdk) w1 :
  service_backend sdk service name (env w) = (e', Return backend) ->
  makedirs (builder_backend_dir root_dir name)
    {| env := e'; fs := fs w; stdout := stdout w |} = (w1, Return tt) ->
  save_backend verbose service root_dir name w
  = (foldl (fun w0 m => fst (save_method verbose backend
                                (builder_backend_dir root_dir name) name m w0))
       w1 simulation_methods,
     Return tt).
Proof.
  intros Hcall Hmk. unfold save_backend, load_backend, try_except, bind.
  rewrite call_world, Hcall. cbn [fst snd ret].
  change (OsPath.join root_dir [ name ]) with (builder_backend_dir root_dir name).
  rewrite Hmk. apply save_methods_all.
Qed.





End Builder.

(** ** C5: tolerance of partial failures *)




(** A regular file standing where the directory of the first backend is
    to be created ends the whole run with a [FileExistsError]: the second
    backend is never asked for. *)
Example backend_dir_failure_aborts :
  let w0 : @World (toy_sdk [] false) :=
    {| env := ([] : Env (toy_sdk [] false));
       fs := {[ "/data/ibm_simulators/ibm_brisbane" := File [] ]};
       stdout := [] |} in
  let out := save_ibm_simulators "ibm_quantum" "T" "/data" true w0 in
  snd out = Raise (Exn FileExistsError
                     "[Errno 17] File exists: '/data/ibm_simulators/ibm_brisbane'")
  /\ env (fst out) = [ "QiskitRuntimeService"; "backend ibm_brisbane" ]
  /\ stdout (fst out) = [].
Proof. vm_compute. by repeat split. Qed.

(** Creating the root directory creates the base directory with it: once
    [/data/ibm_simulators] is there, so is [/data], and creating [/data]
    again is refused by nobody. *)
Example root_directory_brings_its_ancestors :
  Os.has_entry_below "/data" {[ "/data/ibm_simulators" := Dir ]} = true
  /\ Os.makedirs_exist_ok (os_refuses picky_sdk "/readonly")
       "/readonly" {[ "/readonly/ibm_simulators" := Dir ]}
     = Return (<[ "/readonly" := Dir ]> {[ "/readonly/ibm_simulators" := Dir ]}).
Proof. split; vm_compute; reflexivity. Qed.

(** A regular file standing where the base directory should be: the root
    directory cannot be created, and the run ends before the service
    client is built. *)
Example base_path_is_a_file_aborts :
  let w0 : @World (toy_sdk [] false) :=
    {| env := ([] : Env (toy_sdk [] false));
       fs := {[ "/data" := File [] ]};
       stdout := [] |} in
  save_ibm_simulators "ibm_quantum" "T" "/data" true w0
  = (w0, Raise (Exn NotADirectoryError
                  "[Errno 20] Not a directory: '/data/ibm_simulators'")).
Proof. vm_compute. reflexivity. Qed.

(** A directory the operating system does not let the Builder write in:
    the same. *)
Example read_only_base_path_aborts :
  let w0 : @World picky_sdk :=
    {| env := ([] : Env picky_sdk); fs := ∅; stdout := [] |} in
  save_ibm_simulators "ibm_quantum" "T" "/readonly/data" true w0
  = (w0, Raise (Exn PermissionError
                  "[Errno 13] Permission denied: '/readonly/data/ibm_simulators'")).
Proof. vm_compute. reflexivity. Qed.

(** The example of the specification, traced: with [ibm_sherbrooke]
    refused, ten files are written for [ibm_brisbane], none for
    [ibm_sherbrooke], and the refused backend prints one line. *)
Example bulk_save_one_backend_down :
  let out := save_ibm_simulators (sdk := toy_sdk [ "ibm_sherbrooke" ] false)
               "ibm_quantum" "T" "/data" true (toy_world [ "ibm_sherbrooke" ] false) in
  snd out = Return tt
  /\ map (fun m => fs (fst out) !! runner_filepath "/data" "ibm_brisbane" m)
       simulation_methods
     = replicate 10 (Some (File [ x80; x01 ]))
  /\ map (fun m => fs (fst out) !! runner_filepath "/data" "ibm_sherbrooke" m)
       simulation_methods
     = replicate 10 None
  /\ length (stdout (fst out)) = 11
  /\ last (stdout (fst out))
     = Some "Failed to load backend 'ibm_sherbrooke': No backend matches the criteria.".
Proof. vm_compute. by repeat split. Qed.

(** ** C6: what a failed save step leaves behind *)




(** ** The theorems at concrete inputs *)

Lemma unsupported_backend_rejected_witness :
  exists rest,
    init (sdk := toy_sdk [] false) (Some "/data") ∅ "ibm_kyoto" "aer_simulator_statevector"
    = Raise (Exn ValueError ("Unsupported IBM backend: '" +:+ "ibm_kyoto" +:+ "'" +:+ rest)).
Proof.
  apply (unsupported_backend_rejected (sdk := toy_sdk [] false)
           (Some "/data") ∅ "ibm_kyoto" "aer_simulator_statevector").
  by_evaluation.
Defined.

Lemma unsupported_method_rejected_witness :
  exists msg,
    init (sdk := toy_sdk [] false) (Some "/data") ∅ "ibm_kyoto" "aer_simulator_tensor"
    = Raise (Exn ValueError msg)
    /\ ("ibm_kyoto" ∈ AVAILABLE_BACKENDS ->
        msg = "Unsupported simulation method: '" +:+ "aer_simulator_tensor" +:+ "'."
              +:+ PyStr.nl +:+ "Supported methods: "
              +:+ repr_set (toy_sdk [] false) SUPPORTED_SIMULATION_METHODS)
    /\ ("ibm_kyoto" ∉ AVAILABLE_BACKENDS ->
        msg = "Unsupported IBM backend: '" +:+ "ibm_kyoto" +:+ "'." +:+ PyStr.nl
              +:+ "Available backends: "
              +:+ repr_set (toy_sdk [] false) AVAILABLE_BACKENDS).
Proof.
  apply (unsupported_method_rejected (sdk := toy_sdk [] false)
           (Some "/data") ∅ "ibm_kyoto" "aer_simulator_tensor").
  by_evaluation.
Defined.

Lemma unloadable_artifact_rejected_witness :
  exists why,
    init (sdk := toy_sdk [] false) (Some "/data") ∅
      "ibm_brisbane" "aer_simulator_statevector"
    = Raise (Exn IOError
               ("Failed to load AerSimulator from "
                +:+ runner_filepath "/data" "ibm_brisbane" "aer_simulator_statevector"
                +:+ ": " +:+ why)).
Proof.
  refine (proj1 (unloadable_artifact_rejected (sdk := toy_sdk [] false)
                   (Some "/data") ∅ "ibm_brisbane" "aer_simulator_statevector" _ _)
            "/data" eq_refl _).
  - by_evaluation.
  - by_evaluation.
  - intros obj (content & Hfile & _). by rewrite lookup_empty in Hfile.
Defined.

Lemma construction_succeeds_witness :
  exists self,
    init (sdk := toy_sdk [] false) (Some "/data")
      {[ "/data/ibm_simulators/ibm_brisbane/aer_simulator_statevector.dill"
         := File [ x80; x01 ] ]}
      "ibm_brisbane" "aer_simulator_statevector"
    = Return self
    /\ ibm_backend self = "ibm_brisbane"
    /\ simulation_method self = "aer_simulator_statevector"
    /\ simulator self = ToySimulator "ibm_brisbane" "statevector" "CPU"
    /\ available_backends self = AVAILABLE_BACKENDS
    /\ available_simulation_methods self = SUPPORTED_SIMULATION_METHODS.
Proof.
  apply (construction_succeeds (sdk := toy_sdk [] false) "/data" _
           "ibm_brisbane" "aer_simulator_statevector").
  - by_evaluation.
  - by_evaluation.
  - exists [ x80; x01 ]. split; [| by split].
    change (runner_filepath "/data" "ibm_brisbane" "aer_simulator_statevector")
      with "/data/ibm_simulators/ibm_brisbane/aer_simulator_statevector.dill".
    apply lookup_singleton_eq.
Defined.

Lemma run_transpiles_then_samples_witness :
  let self :=
    @Build_QiskitQuantumSimulator (toy_sdk [] false)
      "ibm_brisbane" "aer_simulator_statevector"
      (ToySimulator "ibm_brisbane" "statevector" "CPU") in
  transpile_circuit self "bell" [] = ([ "transpile" ], Return "transpiled bell")
  /\ run self "bell" []
     = ([ "transpile"; "Sampler"; "sampler.run" ], Return [ "transpiled bell" ]).
Proof.
  intros self.
  apply (run_transpiles_then_samples (sdk := toy_sdk [] false) self "bell"
           "transpiled bell" (ToySimulator "ibm_brisbane" "statevector" "CPU")
           [] [ "transpile" ] [ "transpile"; "Sampler" ]); reflexivity.
Defined.

Lemma allow_lists_agree_witness :
  init (sdk := toy_sdk [] false) (Some "/data") ∅ "ibm_sherbrooke" "aer_simulator_superop"
  = match load_simulator (sdk := toy_sdk [] false) ∅
            (builder_filepath
               (builder_backend_dir (builder_root_dir "/data") "ibm_sherbrooke")
               "aer_simulator_superop") with
    | Return sim =>
        Return {| ibm_backend_name := "ibm_sherbrooke";
                  simulation_method_name := "aer_simulator_superop";
                  loaded_simulator := sim |}
    | Raise e => Raise e
    end.
Proof.
  destruct allow_lists_agree as (_ & _ & _ & _ & _ & _ & _ & _ & Hbuilt & _).
  apply (Hbuilt (toy_sdk [] false) "/data" ∅ "ibm_sherbrooke" "aer_simulator_superop").
  - by_evaluation.
  - by_evaluation.
Defined.

(** * Further properties of the code *)

(** ** One file for each pair of a backend and a method *)

Lemma root_dir_shape (base : string) :
  builder_root_dir base <> ""
  /\ PyStr.endswith (builder_root_dir base) OsPath.sep = false.
Proof.
  unfold builder_root_dir. rewrite OsPathFacts.join_cons, OsPathFacts.join_nil.
  destruct (OsPathFacts.join_step_suffix base "ibm_simulators") as [pre ->]. split.
  - intros Heq. by apply PyStrFacts.app_eq_nil in Heq as [_ Heq].
  - rewrite PyStrFacts.endswith_app; [reflexivity | cbn; lia].
Qed.

(** Whatever the base path, the names of the vocabularies are appended to
    the root directory with one separator each. *)
Lemma runner_filepath_from_root (base b m : string) :
  plain b -> plain m ->
  runner_filepath base b m
  = builder_root_dir base +:+ "/" +:+ b +:+ "/" +:+ m +:+ ".dill".
Proof.
  intros (Hb0 & Hb1 & Hb2) (Hm0 & Hm1 & _).
  destruct (root_dir_shape base) as [Hne Hend].
  rewrite <- OsPathFacts.builder_runner_filepath.
  unfold builder_filepath, builder_backend_dir.
  rewrite !OsPathFacts.join_cons, !OsPathFacts.join_nil.
  rewrite (OsPathFacts.join_step_plain _ b Hne Hend Hb1).
  destruct (OsPathFacts.plain_app (builder_root_dir base) b) as [Hne2 Hend2];
    [by repeat split |].
  rewrite (OsPathFacts.join_step_plain _ (m +:+ ".dill") Hne2 Hend2
             (OsPathFacts.plain_dill m Hm1 Hm0)).
  by rewrite !PyStrFacts.app_assoc.
Qed.

(** Below the root directory the twenty artifacts have twenty names. *)
Lemma relative_paths_distinct :
  Forall (fun b => Forall (fun b' => Forall (fun m => Forall (fun m' =>
    "/" +:+ b +:+ "/" +:+ m +:+ ".dill" = "/" +:+ b' +:+ "/" +:+ m' +:+ ".dill" ->
    b = b' /\ m = m')
    simulation_methods) simulation_methods) target_backends) target_backends.
Proof. by_evaluation. Qed.

(** X1: For every base path, two pairs of an allowed backend and an allowed
    method that resolve to the same artifact path are the same pair: no
    artifact is stored where another one is. *)
Theorem artifact_paths_distinct (base b b' m m' : string) :
  b ∈ AVAILABLE_BACKENDS -> b' ∈ AVAILABLE_BACKENDS ->
  m ∈ SUPPORTED_SIMULATION_METHODS -> m' ∈ SUPPORTED_SIMULATION_METHODS ->
  runner_filepath base b m = runner_filepath base b' m' ->
  b = b' /\ m = m'.
Proof.
  intros Hb Hb' Hm Hm'.
  rewrite (runner_filepath_from_root base b m
             (OsPathFacts.plain_backend b Hb) (OsPathFacts.plain_method m Hm)).
  rewrite (runner_filepath_from_root base b' m'
             (OsPathFacts.plain_backend b' Hb') (OsPathFacts.plain_method m' Hm')).
  intros Heq. apply (inj (String.app (builder_root_dir base))) in Heq.
  apply target_backends_available in Hb, Hb'.
  apply simulation_methods_supported in Hm, Hm'.
  pose proof relative_paths_distinct as Hall.
  rewrite Forall_forall in Hall. specialize (Hall b Hb).
  rewrite Forall_forall in Hall. specialize (Hall b' Hb').
  rewrite Forall_forall in Hall. specialize (Hall m Hm).
  rewrite Forall_forall in Hall. by apply (Hall m' Hm').
Qed.

Lemma artifact_paths_distinct_witness :
  "ibm_brisbane" = "ibm_brisbane" /\ "aer_simulator_unitary" = "aer_simulator_unitary".
Proof.
  apply (artifact_paths_distinct "" "ibm_brisbane" "ibm_brisbane"
           "aer_simulator_unitary" "aer_simulator_unitary");
    [ by_evaluation | by_evaluation | by_evaluation | by_evaluation | reflexivity ].
Defined.

(** ** How the construction of a Runner fails *)

(** X3: The construction raises nothing but a [ValueError] (a name outside its
    allow-list), a [TypeError] (valid names, no base path in the
    environment) or an [IOError] (valid names, a base path, no acceptable
    artifact at the resolved path).  No exception of the file system or of
    the deserializer leaves it unwrapped. *)
Theorem init_raises_classified {sdk : SDK} (base : option string)
    (files : gmap string node) (b m : string) (x : exn) :
  init (sdk := sdk) base files b m = Raise x ->
  (exn_cls x = ValueError
   /\ (b ∉ AVAILABLE_BACKENDS \/ m ∉ SUPPORTED_SIMULATION_METHODS))
  \/ (exn_cls x = TypeError
      /\ b ∈ AVAILABLE_BACKENDS /\ m ∈ SUPPORTED_SIMULATION_METHODS /\ base = None)
  \/ (exn_cls x = IOError
      /\ b ∈ AVAILABLE_BACKENDS /\ m ∈ SUPPORTED_SIMULATION_METHODS
      /\ exists root,
           base = Some root
           /\ forall obj : PyObj sdk,
                ~ loadable files (runner_filepath root b m) obj).
Proof.
  destruct (decide (b ∈ AVAILABLE_BACKENDS)) as [Hb | Hb].
  - destruct (decide (m ∈ SUPPORTED_SIMULATION_METHODS)) as [Hm | Hm].
    + destruct base as [root |].
      * rewrite (init_valid_names root files b m Hb Hm).
        destruct (load_simulator_cases (sdk := sdk) files (runner_filepath root b m))
          as [(obj & -> & _) | [Hnone [why ->]]]; [discriminate |].
        intros [= <-]. right. right.
        split; [reflexivity |]. split; [exact Hb |]. split; [exact Hm |].
        exists root. split; [reflexivity | exact Hnone].
      * rewrite (unset_base_path_rejected (sdk := sdk) files b m Hb Hm).
        intros [= <-]. right. left.
        split; [reflexivity |]. split; [exact Hb |]. split; [exact Hm | reflexivity].
    + unfold init. rewrite (set_ibm_backend_supported (sdk := sdk) b Hb).
      rewrite (set_simulator_unsupported (sdk := sdk) base files b m Hm).
      intros [= <-]. left. split; [reflexivity | right; exact Hm].
  - unfold init. rewrite (set_ibm_backend_unsupported (sdk := sdk) b Hb).
    intros [= <-]. left. split; [reflexivity | left; exact Hb].
Qed.

Lemma init_raises_classified_witness :
  (ValueError = ValueError
   /\ ("ibm_kyoto" ∉ AVAILABLE_BACKENDS
       \/ "aer_simulator_unitary" ∉ SUPPORTED_SIMULATION_METHODS))
  \/ (ValueError = TypeError
      /\ "ibm_kyoto" ∈ AVAILABLE_BACKENDS
      /\ "aer_simulator_unitary" ∈ SUPPORTED_SIMULATION_METHODS
      /\ (None : option string) = None)
  \/ (ValueError = IOError
      /\ "ibm_kyoto" ∈ AVAILABLE_BACKENDS
      /\ "aer_simulator_unitary" ∈ SUPPORTED_SIMULATION_METHODS
      /\ exists root,
           (None : option string) = Some root
           /\ forall obj : PyObj (toy_sdk [] false),
                ~ loadable (sdk := toy_sdk [] false) ∅
                    (runner_filepath root "ibm_kyoto" "aer_simulator_unitary") obj).
Proof.
  apply (init_raises_classified (sdk := toy_sdk [] false) None ∅
           "ibm_kyoto" "aer_simulator_unitary"
           (Exn ValueError
              ("Unsupported IBM backend: 'ibm_kyoto'." +:+ PyStr.nl
               +:+ "Available backends: "
               +:+ repr_set (toy_sdk [] false) AVAILABLE_BACKENDS))).
  vm_compute. reflexivity.
Defined.

(** X5: A name outside its allow-list is rejected before anything else is
    looked at: the outcome is the same for every base path, set or not, and
    every file system. *)
Theorem invalid_names_fail_fast {sdk : SDK} (base base' : option string)
    (files files' : gmap string node) (b m : string) :
  b ∉ AVAILABLE_BACKENDS \/ m ∉ SUPPORTED_SIMULATION_METHODS ->
  init (sdk := sdk) base files b m = init (sdk := sdk) base' files' b m.
Proof.
  intros Hbad. unfold init.
  destruct (decide (b ∈ AVAILABLE_BACKENDS)) as [Hb | Hb].
  - destruct Hbad as [Hbad | Hm]; [destruct (Hbad Hb) |].
    rewrite (set_ibm_backend_supported (sdk := sdk) b Hb).
    rewrite (set_simulator_unsupported (sdk := sdk) base files b m Hm).
    rewrite (set_simulator_unsupported (sdk := sdk) base' files' b m Hm). reflexivity.
  - rewrite (set_ibm_backend_unsupported (sdk := sdk) b Hb). reflexivity.
Qed.

Lemma invalid_names_fail_fast_witness :
  init (sdk := toy_sdk [] false) None ∅ "ibm_brisbane" "statevector"
  = init (sdk := toy_sdk [] false) (Some "/data")
      {[ "/data/ibm_simulators/ibm_brisbane/statevector.dill" := File [ x80; x01 ] ]}
      "ibm_brisbane" "statevector".
Proof.
  apply (invalid_names_fail_fast (sdk := toy_sdk [] false)).
  right. by_evaluation.
Defined.

(** ** How running a circuit fails *)

(** X6: [run] raises no exception of its own and wraps none: an exception that
    leaves it was raised by the transpiler, or else by the construction of
    the sampler after a successful transpilation, or else by the sampler's
    [run] on the transpiled circuit; the state is the one that call left,
    so no later call was made. *)
Theorem run_raises_classified {sdk : SDK} (self : QiskitQuantumSimulator)
    (circuit : Circuit sdk) (e0 e' : Env sdk) (x : exn) :
  run self circuit e0 = (e', Raise x) ->
  transpile sdk circuit (simulator self) 1 e0 = (e', Raise x)
  \/ (exists e1 transpiled,
        transpile sdk circuit (simulator self) 1 e0 = (e1, Return transpiled)
        /\ SamplerV2 sdk (simulator self) e1 = (e', Raise x))
  \/ (exists e1 transpiled e2 sampler,
        transpile sdk circuit (simulator self) 1 e0 = (e1, Return transpiled)
        /\ SamplerV2 sdk (simulator self) e1 = (e2, Return sampler)
        /\ sampler_run sdk sampler [ transpiled ] e2 = (e', Raise x)).
Proof.
  unfold run, bind, transpile_circuit, simulator.
  destruct (transpile sdk circuit (loaded_simulator self) 1 e0)
    as [e1 [transpiled | x1]] eqn:Htranspile; [| intros [= <- <-]; by left].
  destruct (SamplerV2 sdk (loaded_simulator self) e1)
    as [e2 [sampler | x2]] eqn:Hsampler.
  - intros Hrun. right. right. by exists e1, transpiled, e2, sampler.
  - intros [= <- <-]. right. left. by exists e1, transpiled.
Qed.

Lemma run_raises_classified_witness :
  transpile picky_sdk "" (ToySimulator "ibm_brisbane" "statevector" "CPU") 1 []
  = ([ "transpile" ], Raise (Exn (External "TranspilerError") "the circuit is empty"))
  \/ (exists e1 transpiled,
        transpile picky_sdk "" (ToySimulator "ibm_brisbane" "statevector" "CPU") 1 []
        = (e1, Return transpiled)
        /\ SamplerV2 picky_sdk (ToySimulator "ibm_brisbane" "statevector" "CPU") e1
           = ([ "transpile" ],
              Raise (Exn (External "TranspilerError") "the circuit is empty")))
  \/ (exists e1 transpiled e2 sampler,
        transpile picky_sdk "" (ToySimulator "ibm_brisbane" "statevector" "CPU") 1 []
        = (e1, Return transpiled)
        /\ SamplerV2 picky_sdk (ToySimulator "ibm_brisbane" "statevector" "CPU") e1
           = (e2, Return sampler)
        /\ sampler_run picky_sdk sampler [ transpiled ] e2
           = ([ "transpile" ],
              Raise (Exn (External "TranspilerError") "the circuit is empty"))).
Proof.
  apply (run_raises_classified (sdk := picky_sdk)
           (@Build_QiskitQuantumSimulator picky_sdk "ibm_brisbane"
              "aer_simulator_statevector"
              (ToySimulator "ibm_brisbane" "statevector" "CPU"))
           "" [] [ "transpile" ]
           (Exn (External "TranspilerError") "the circuit is empty")).
  reflexivity.
Defined.

(** ** What the Builder leaves alone *)

Section Keeping.

Context {sdk : SDK}.

Implicit Types (w : @World sdk) (verbose : bool).

Lemma builder_keeps_refl w : builder_keeps w w.
Proof. by split. Qed.

Lemma builder_keeps_trans w1 w2 w3 :
  builder_keeps w1 w2 -> builder_keeps w2 w3 -> builder_keeps w1 w3.
Proof.
  intros [Hsome12 Hkeep12] [Hsome23 Hkeep23]. split.
  - intros p Hp. by apply Hsome23, Hsome12.
  - intros p n Hp Hn. apply Hkeep23; [| exact Hn]. by apply Hkeep12.
Qed.

Lemma builder_keeps_fs w w' : fs w' = fs w -> builder_keeps w w'.
Proof. intros Hfs. unfold builder_keeps. rewrite Hfs. by split. Qed.

(** Writing a file where no directory stands, under a name in [.dill]. *)
Lemma builder_keeps_write w w' (filepath : string) (c : list byte) :
  PyStr.endswith filepath ".dill" = true ->
  fs w !! filepath <> Some Dir ->
  fs w' = <[filepath := File c]> (fs w) ->
  builder_keeps w w'.
Proof.
  intros Hdill Hdir Hfs. unfold builder_keeps. rewrite Hfs. split.
  - intros p Hp. destruct (decide (filepath = p)) as [<- | Hne].
    + rewrite lookup_insert_eq. by eexists.
    + by rewrite lookup_insert_ne.
  - intros p n Hp Hn. destruct (decide (filepath = p)) as [<- | Hne].
    + destruct Hn as [-> | Hn]; [by destruct Hdir | congruence].
    + by rewrite lookup_insert_ne.
Qed.

Lemma call_keeps {A} (f : Env sdk -> Env sdk * result A) w :
  builder_keeps w (fst (call f w)).
Proof. rewrite call_world. by apply builder_keeps_fs. Qed.

Lemma when_print_keeps verbose (line : string) w :
  builder_keeps w (fst (when verbose (print line) w)).
Proof. rewrite when_print. by apply builder_keeps_fs. Qed.

Lemma makedirs_keeps (path : string) w : builder_keeps w (fst (makedirs path w)).
Proof.
  destruct (makedirs_cases path w) as [[-> Hpath] | [x ->]]; cbn [fst];
    [| apply builder_keeps_refl].
  split; cbn [fs].
  - intros p Hp. destruct (decide (path = p)) as [<- | Hne].
    + rewrite lookup_insert_eq. by eexists.
    + by rewrite lookup_insert_ne.
  - intros p n Hp Hn. destruct (decide (path = p)) as [<- | Hne].
    + rewrite lookup_insert_eq. destruct n as [| c]; [reflexivity | by destruct (Hpath c)].
    + by rewrite lookup_insert_ne.
Qed.

(** What a save step does to the file system: nothing, or it puts a
    regular file at its artifact path, where no directory stood. *)
Lemma save_method_fs verbose backend (backend_dir backend_name m : string) w :
  fs (fst (save_method verbose backend backend_dir backend_name m w)) = fs w
  \/ (fs w !! builder_filepath backend_dir m <> Some Dir
      /\ exists c,
           fs (fst (save_method verbose backend backend_dir backend_name m w))
           = <[builder_filepath backend_dir m := File c]> (fs w)).
Proof.
  unfold save_method, try_except, save_method_try, save_method_except, bind.
  change (OsPath.join backend_dir [ m +:+ ".dill" ])
    with (builder_filepath backend_dir m).
  destruct (configured_simulator backend m w) as [w1 [sim | x]] eqn:Hconf;
    apply configured_simulator_world in Hconf as [Hfs1 _].
  - unfold open_wb_dump, Os.open_wb. rewrite Hfs1.
    destruct (fs w !! builder_filepath backend_dir m) as [[| c0] |] eqn:Hpath.
    + rewrite when_print. left. exact Hfs1.
    + destruct (dill_dump sdk sim (env w1)) as [e' [written [x |]]];
        rewrite when_print; right; (split; [congruence |]); exists written;
        apply insert_insert_eq.
    + destruct (dill_dump sdk sim (env w1)) as [e' [written [x |]]];
        rewrite when_print; right; (split; [congruence |]); exists written;
        apply insert_insert_eq.
  - rewrite when_print. left. exact Hfs1.
Qed.

Lemma save_method_keeps verbose backend (backend_dir backend_name m : string) w :
  builder_keeps w (fst (save_method verbose backend backend_dir backend_name m w)).
Proof.
  destruct (save_method_fs verbose backend backend_dir backend_name m w)
    as [Hfs | (Hdir & c & Hfs)].
  - by apply builder_keeps_fs.
  - eapply builder_keeps_write; [apply builder_filepath_dill | exact Hdir | exact Hfs].
Qed.

Lemma save_backend_keeps verbose service (root_dir name : string) w :
  builder_keeps w (fst (save_backend verbose service root_dir name w)).
Proof.
  unfold save_backend, load_backend.
  apply bind_steps; [exact builder_keeps_trans | |].
  - apply try_except_steps; [exact builder_keeps_trans | |].
    + apply bind_steps; [exact builder_keeps_trans | apply call_keeps |].
      intros backend w0. apply builder_keeps_refl.
    + intros e. apply bind_steps; [exact builder_keeps_trans | apply when_print_keeps |].
      intros _ w0. apply builder_keeps_refl.
  - intros [backend |] w0; [| apply builder_keeps_refl].
    apply bind_steps; [exact builder_keeps_trans | apply makedirs_keeps |].
    intros _. apply for_each_steps;
      [exact builder_keeps_refl | exact builder_keeps_trans |].
    intros m. apply save_method_keeps.
Qed.

(** X8: Whatever the collaborators do and however the run ends, normally or
    with an exception, the bulk save removes nothing from the file system,
    and it leaves every directory, and every regular file whose name does
    not end in [.dill], exactly as it found it. *)
Theorem bulk_save_keeps_other_files (channel token base : string) verbose w :
  builder_keeps w (fst (save_ibm_simulators channel token base verbose w)).
Proof.
  unfold save_ibm_simulators.
  apply bind_steps; [exact builder_keeps_trans | apply makedirs_keeps |].
  intros _. apply bind_steps; [exact builder_keeps_trans | |].
  - unfold init_service.
    apply try_except_steps; [exact builder_keeps_trans | apply call_keeps |].
    intros e w0. apply builder_keeps_refl.
  - intros service. apply for_each_steps;
      [exact builder_keeps_refl | exact builder_keeps_trans |].
    intros name. apply save_backend_keeps.
Qed.

(** X9: A save step changes the file system at its own artifact path and
    nowhere else, whether it succeeds or fails. *)
Theorem save_method_touches_only_artifact verbose backend
    (backend_dir backend_name m p : string) w :
  p <> builder_filepath backend_dir m ->
  fs (fst (save_method verbose backend backend_dir backend_name m w)) !! p = fs w !! p.
Proof.
  intros Hp.
  destruct (save_method_fs verbose backend backend_dir backend_name m w)
    as [-> | (_ & c & ->)]; [reflexivity |].
  by rewrite lookup_insert_ne.
Qed.

End Keeping.

Lemma save_method_touches_only_artifact_witness :
  fs (fst (save_method (sdk := toy_sdk [] false) true "ibm_brisbane"
             "/data/ibm_simulators/ibm_brisbane" "ibm_brisbane" "aer_simulator_unitary"
             (toy_world [] false)))
    !! "/data/ibm_simulators/ibm_brisbane/aer_simulator_superop.dill"
  = fs (toy_world [] false)
      !! "/data/ibm_simulators/ibm_brisbane/aer_simulator_superop.dill".
Proof.
  apply (save_method_touches_only_artifact (sdk := toy_sdk [] false)).
  vm_compute. discriminate.
Defined.

(** ** What the bulk save prints, and what it leaves when it stops *)

Section Outcomes.

Context {sdk : SDK}.

Implicit Types (w : @World sdk) (verbose : bool).

Lemma prints_same w w' : stdout w' = stdout w -> prints 0 w w'.
Proof. intros Hout. exists []. by rewrite app_nil_r. Qed.

Lemma prints_trans (n1 n2 : nat) w1 w2 w3 :
  prints n1 w1 w2 -> prints n2 w2 w3 -> prints (n1 + n2) w1 w3.
Proof.
  intros (l1 & Hout1 & Hlen1) (l2 & Hout2 & Hlen2). exists (l1 ++ l2). split.
  - by rewrite Hout2, Hout1, <- app_assoc.
  - rewrite length_app. lia.
Qed.

(** A save step prints one line under [verbose], the line of its success
    or the line of its failure, and nothing otherwise. *)
Lemma save_method_prints verbose backend (backend_dir backend_name m : string) w :
  prints (if verbose then 1 else 0) w
    (fst (save_method verbose backend backend_dir backend_name m w)).
Proof.
  unfold save_method, try_except, save_method_try, save_method_except, bind.
  destruct (configured_simulator backend m w) as [w1 [sim | x]] eqn:Hconf;
    apply configured_simulator_world in Hconf as [_ Hout1].
  - match goal with
    | |- context [open_wb_dump ?p sim w1] =>
        destruct (open_wb_dump_world p sim w1) as (w2 & r & -> & Hout2 & _)
    end.
    destruct r as [[] | x]; rewrite when_print; cbn [fst stdout];
      rewrite Hout2, Hout1; eexists; (split; [reflexivity |]); by destruct verbose.
  - rewrite when_print. cbn [fst stdout]. rewrite Hout1.
    eexists. split; [reflexivity |]. by destruct verbose.
Qed.

Lemma save_methods_print verbose backend (backend_dir backend_name : string)
    (methods : list string) w :
  prints (if verbose then length methods else 0) w
    (fst (for_each methods (save_method verbose backend backend_dir backend_name) w)).
Proof.
  revert w. induction methods as [| m methods IH]; intros w.
  - cbn. replace (if verbose then 0 else 0) with 0 by (by destruct verbose).
    by apply prints_same.
  - cbn [for_each]. unfold bind.
    pose proof (save_method_prints verbose backend backend_dir backend_name m w) as Hm.
    destruct (save_method_returns verbose backend backend_dir backend_name m w)
      as (w1 & Hw1 & _).
    rewrite Hw1 in Hm |- *. cbn [fst] in Hm.
    replace (if verbose then length (m :: methods) else 0)
      with ((if verbose then 1 else 0) + (if verbose then length methods else 0))
      by (by destruct verbose).
    exact (prints_trans _ _ _ _ _ Hm (IH w1)).
Qed.

(** A backend that does not end the run was asked for its handle, and has
    printed one line if the handle was refused and one line for each
    method if it was granted. *)
Lemma save_backend_prints verbose service (root_dir name : string) w w' :
  save_backend verbose service root_dir name w = (w', Return tt) ->
  exists (e' : Env sdk) (handle : result (Backend sdk)),
    service_backend sdk service name (env w) = (e', handle)
    /\ prints (lines_printed verbose handle) w w'.
Proof.
  destruct (service_backend sdk service name (env w)) as [e' [backend | x']] eqn:Hcall.
  - unfold save_backend, load_backend, try_except, bind.
    rewrite call_world, Hcall. cbn [fst snd ret].
    change (OsPath.join root_dir [ name ]) with (builder_backend_dir root_dir name).
    destruct (makedirs_cases (builder_backend_dir root_dir name)
                {| env := e'; fs := fs w; stdout := stdout w |})
      as [[-> _] | [x0 ->]]; [| discriminate].
    match goal with
    | |- context [for_each _ ?body ?w1] =>
        pose proof (save_methods_print verbose backend
                      (builder_backend_dir root_dir name) name simulation_methods w1)
          as Hlines;
        destruct (for_each simulation_methods body w1) as [w2 r]
    end.
    intros [= -> _]. cbn [fst] in Hlines.
    exists e', (Return backend). split; [reflexivity |].
    destruct Hlines as (lines & Hout & Hlen). by exists lines.
  - rewrite (save_backend_skips verbose service root_dir name w e' x' Hcall).
    intros [= <-]. exists e', (Raise x'). split; [reflexivity |]. cbn [stdout].
    eexists. split; [reflexivity |]. by destruct verbose.
Qed.

(** X10: A bulk save that returns has built the service client and asked for
    the handle of [ibm_brisbane] and then of [ibm_sherbrooke]; for each of
    the two, it has printed one line if that handle was refused and ten
    lines, one for each method, if it was granted, when [verbose] is true,
    and nothing when it is false; and it has printed nothing else. *)
Theorem bulk_save_line_count (channel token base : string) verbose w w' :
  save_ibm_simulators channel token base verbose w = (w', Return tt) ->
  exists (e1 e2 e3 : Env sdk) (service : Service sdk) (w1 : World)
         (first second : result (Backend sdk)),
    QiskitRuntimeService sdk channel token (env w) = (e1, Return service)
    /\ service_backend sdk service "ibm_brisbane" e1 = (e2, first)
    /\ service_backend sdk service "ibm_sherbrooke" (env w1) = (e3, second)
    /\ prints (lines_printed verbose first) w w1
    /\ prints (lines_printed verbose second) w1 w'
    /\ length simulation_methods = 10.
Proof.
  unfold save_ibm_simulators, bind.
  destruct (makedirs_cases (OsPath.join base [ "ibm_simulators" ]) w)
    as [[-> _] | [x0 ->]]; [| discriminate].
  unfold init_service, try_except. rewrite call_world. cbn [env fs stdout].
  destruct (QiskitRuntimeService sdk channel token (env w)) as [e1 [service | e]];
    cbn [fst snd]; [| discriminate].
  unfold target_backends. cbn [for_each]. unfold bind.
  match goal with
  | |- context [save_backend verbose service ?root "ibm_brisbane" ?w0] =>
      destruct (save_backend verbose service root "ibm_brisbane" w0)
        as [w1 [[] | x1]] eqn:Hfirst; [| discriminate];
      destruct (save_backend verbose service root "ibm_sherbrooke" w1)
        as [w2 [[] | x2]] eqn:Hsecond; [| discriminate]
  end.
  unfold ret. intros [= <-].
  apply save_backend_prints in Hfirst as (e2 & first & Hcall1 & Hlines1).
  apply save_backend_prints in Hsecond as (e3 & second & Hcall2 & Hlines2).
  exists e1, e2, e3, service, w1, first, second.
  split; [reflexivity |]. split; [exact Hcall1 |]. split; [exact Hcall2 |].
  split; [exact Hlines1 |]. split; [exact Hlines2 | reflexivity].
Qed.

(** X11: When the handle of a backend is granted and [os.makedirs] creates
    its directory, or finds it there, the body of the loop returns
    normally and the directory is there afterwards, whatever becomes of
    the ten save steps. *)
Theorem served_backend_has_directory verbose service (root_dir name : string) w w1
    (e' : Env sdk) (backend : Backend sdk) :
  service_backend sdk service name (env w) = (e', Return backend) ->
  makedirs (builder_backend_dir root_dir name)
    {| env := e'; fs := fs w; stdout := stdout w |} = (w1, Return tt) ->
  exists w',
    save_backend verbose service root_dir name w = (w', Return tt)
    /\ fs w' !! builder_backend_dir root_dir name = Some Dir.
Proof.
  intros Hcall Hmk.
  rewrite (save_backend_serves verbose service root_dir name w e' backend w1 Hcall Hmk).
  eexists. split; [reflexivity |].
  assert (fs w1 !! builder_backend_dir root_dir name = Some Dir) as Hdir.
  { destruct (makedirs_cases (builder_backend_dir root_dir name)
                {| env := e'; fs := fs w; stdout := stdout w |})
      as [[Hok _] | [x Hraise]]; [| congruence].
    rewrite Hok in Hmk. injection Hmk as <-. cbn [fs]. apply lookup_insert_eq. }
  pose proof (for_each_steps builder_keeps simulation_methods
                (save_method verbose backend (builder_backend_dir root_dir name) name)
                builder_keeps_refl builder_keeps_trans
                (fun m w0 => save_method_keeps verbose backend
                               (builder_backend_dir root_dir name) name m w0) w1)
    as [_ Hkeep].
  rewrite save_methods_all in Hkeep. cbn [fst] in Hkeep.
  apply Hkeep; [exact Hdir | by left].
Qed.

(** X12: When [os.makedirs] has dealt with the root directory and the
    service client then fails, the bulk save raises a [RuntimeError] whose
    message is the fixed prefix followed by the message of the failure.
    The file system is the one [os.makedirs] left: the root directory is
    there and no regular file has been created, changed or removed.
    Nothing has been printed and no backend has been asked for. *)
Theorem service_failure_raised (channel token base : string) verbose w w1
    (e1 : Env sdk) (x : exn) :
  QiskitRuntimeService sdk channel token (env w) = (e1, Raise x) ->
  makedirs (builder_root_dir base) w = (w1, Return tt) ->
  save_ibm_simulators channel token base verbose w
  = ({| env := e1; fs := fs w1; stdout := stdout w |},
     Raise (Exn RuntimeError
              ("Failed to initialize QiskitRuntimeService: " +:+ exn_str x)))
  /\ fs w1 !! builder_root_dir base = Some Dir
  /\ forall p c, fs w1 !! p = Some (File c) <-> fs w !! p = Some (File c).
Proof.
  intros Hinit Hmk.
  destruct (makedirs_cases (builder_root_dir base) w) as [[Hok Hroot] | [x0 Hraise]];
    [| congruence].
  rewrite Hok in Hmk. injection Hmk as <-. cbn [fs]. split; [| split].
  - unfold save_ibm_simulators, bind.
    change (OsPath.join base [ "ibm_simulators" ]) with (builder_root_dir base).
    rewrite Hok. unfold init_service, try_except. rewrite call_world.
    cbn [env fs stdout]. by rewrite Hinit.
  - apply lookup_insert_eq.
  - intros p c. destruct (decide (builder_root_dir base = p)) as [<- | Hne].
    + rewrite lookup_insert_eq. split; [discriminate | intros Hp; by destruct (Hroot c)].
    + by rewrite lookup_insert_ne.
Qed.

(** ** From the Builder to the Runner *)



End Outcomes.

(** The directory of a backend of the list stands directly below the root
    directory. *)
Lemma backend_dir_below_root (base name : string) :
  PyStr.startswith name OsPath.sep = false ->
  Os.below (builder_root_dir base) (builder_backend_dir (builder_root_dir base) name)
  = true.
Proof.
  intros Hname. destruct (root_dir_shape base) as [Hne Hend].
  unfold builder_backend_dir. rewrite OsPathFacts.join_cons, OsPathFacts.join_nil.
  rewrite (OsPathFacts.join_step_plain _ name Hne Hend Hname).
  unfold Os.below. rewrite <- PyStrFacts.app_assoc.
  generalize (builder_root_dir base +:+ "/"). intros s.
  induction s as [| a s IH]; [by destruct name |].
  rewrite PyStrFacts.app_cons. cbn [String.prefix].
  by destruct (ascii_dec a a).
Qed.

(** X13: A regular file standing where the directory of the first backend is
    to be created ends the whole run: the [FileExistsError] of
    [os.makedirs] leaves the bulk save, nothing has been printed, and the
    second backend is never asked for (the collaborators are left in the
    state of the first handle request). *)
Theorem backend_directory_failure_aborts {sdk : SDK} (channel token base : string)
    (verbose : bool) (w : @World sdk) (service : Service sdk) (backend : Backend sdk)
    (e1 e2 : Env sdk) (c : list byte) :
  QiskitRuntimeService sdk channel token (env w) = (e1, Return service) ->
  service_backend sdk service "ibm_brisbane" e1 = (e2, Return backend) ->
  (forall c0, fs w !! builder_root_dir base <> Some (File c0)) ->
  fs w !! builder_backend_dir (builder_root_dir base) "ibm_brisbane" = Some (File c) ->
  save_ibm_simulators channel token base verbose w
  = ({| env := e2; fs := <[builder_root_dir base := Dir]> (fs w); stdout := stdout w |},
     Raise (file_exists_error
              (builder_backend_dir (builder_root_dir base) "ibm_brisbane"))).
Proof.
  intros Hinit Hcall Hroot Hfile. unfold save_ibm_simulators, bind.
  change (OsPath.join base [ "ibm_simulators" ]) with (builder_root_dir base).
  rewrite (makedirs_existing (builder_root_dir base)
             (builder_backend_dir (builder_root_dir base) "ibm_brisbane")
             (File c) w Hroot Hfile (backend_dir_below_root base "ibm_brisbane" eq_refl)).
  unfold init_service, try_except. rewrite call_world. cbn [env fs stdout].
  rewrite Hinit. cbn [fst snd].
  unfold target_backends. cbn [for_each]. unfold bind at 1.
  unfold save_backend, load_backend, try_except, bind.
  rewrite call_world. cbn [env fs stdout]. rewrite Hcall. cbn [fst snd ret].
  change (OsPath.join (builder_root_dir base) [ "ibm_brisbane" ])
    with (builder_backend_dir (builder_root_dir base) "ibm_brisbane").
  unfold makedirs, Os.makedirs_exist_ok. cbn [env fs stdout].
  rewrite lookup_insert_ne; [by rewrite Hfile |].
  intros Heq. rewrite <- Heq in Hfile. by destruct (Hroot c).
Qed.

(** ** The further theorems at concrete inputs *)

Lemma service_failure_raised_witness :
  let w0 : @World picky_sdk :=
    {| env := ([] : Env picky_sdk); fs := ∅; stdout := [] |} in
  let w1 : @World picky_sdk :=
    {| env := ([] : Env picky_sdk);
       fs := {[ "/data/ibm_simulators" := Dir ]};
       stdout := [] |} in
  save_ibm_simulators "ibm_quantum" "" "/data" true w0
  = ({| env := ([ "QiskitRuntimeService" ] : Env picky_sdk);
        fs := fs w1; stdout := stdout w0 |},
     Raise (Exn RuntimeError
              ("Failed to initialize QiskitRuntimeService: "
               +:+ exn_str (Exn (External "IBMNotAuthorizedError")
                              "no token was given"))))
  /\ fs w1 !! builder_root_dir "/data" = Some Dir
  /\ forall p c, fs w1 !! p = Some (File c) <-> fs w0 !! p = Some (File c).
Proof.
  intros w0 w1.
  apply (service_failure_raised (sdk := picky_sdk) "ibm_quantum" "" "/data" true w0 w1
           [ "QiskitRuntimeService" ]
           (Exn (External "IBMNotAuthorizedError") "no token was given")).
  - reflexivity.
  - vm_compute. reflexivity.
Defined.

Lemma bulk_save_line_count_witness :
  exists (e1 e2 e3 : Env (toy_sdk [ "ibm_sherbrooke" ] false))
         (service : Service (toy_sdk [ "ibm_sherbrooke" ] false))
         (w1 : @World (toy_sdk [ "ibm_sherbrooke" ] false))
         (first second : result (Backend (toy_sdk [ "ibm_sherbrooke" ] false))),
    QiskitRuntimeService (toy_sdk [ "ibm_sherbrooke" ] false) "ibm_quantum" "T"
      (env (toy_world [ "ibm_sherbrooke" ] false))
    = (e1, Return service)
    /\ service_backend (toy_sdk [ "ibm_sherbrooke" ] false) service "ibm_brisbane" e1
       = (e2, first)
    /\ service_backend (toy_sdk [ "ibm_sherbrooke" ] false) service "ibm_sherbrooke"
         (env w1)
       = (e3, second)
    /\ prints (lines_printed true first) (toy_world [ "ibm_sherbrooke" ] false) w1
    /\ prints (lines_printed true second) w1
         (fst (save_ibm_simulators (sdk := toy_sdk [ "ibm_sherbrooke" ] false)
                 "ibm_quantum" "T" "/data" true (toy_world [ "ibm_sherbrooke" ] false)))
    /\ length simulation_methods = 10.
Proof.
  apply (bulk_save_line_count (sdk := toy_sdk [ "ibm_sherbrooke" ] false)
           "ibm_quantum" "T" "/data" true).
  vm_compute. reflexivity.
Defined.

Lemma served_backend_has_directory_witness :
  exists w',
    save_backend (sdk := toy_sdk [] true) true tt "/data/ibm_simulators" "ibm_brisbane"
      (toy_world [] true)
    = (w', Return tt)
    /\ fs w' !! builder_backend_dir "/data/ibm_simulators" "ibm_brisbane" = Some Dir.
Proof.
  apply (served_backend_has_directory (sdk := toy_sdk [] true) true tt
           "/data/ibm_simulators" "ibm_brisbane" (toy_world [] true)
           {| env := ([ "backend ibm_brisbane" ] : Env (toy_sdk [] true));
              fs := {[ "/data/ibm_simulators/ibm_brisbane" := Dir ]};
              stdout := [] |}
           [ "backend ibm_brisbane" ] "ibm_brisbane").
  - reflexivity.
  - vm_compute. reflexivity.
Defined.


Lemma backend_directory_failure_aborts_witness :
  let w0 : @World (toy_sdk [] false) :=
    {| env := ([] : Env (toy_sdk [] false));
       fs := {[ "/data/ibm_simulators/ibm_brisbane" := File [] ]};
       stdout := [] |} in
  save_ibm_simulators "ibm_quantum" "T" "/data" true w0
  = ({| env := ([ "QiskitRuntimeService"; "backend ibm_brisbane" ]
                : Env (toy_sdk [] false));
        fs := <[builder_root_dir "/data" := Dir]> (fs w0);
        stdout := stdout w0 |},
     Raise (file_exists_error
              (builder_backend_dir (builder_root_dir "/data") "ibm_brisbane"))).
Proof.
  intros w0.
  apply (backend_directory_failure_aborts (sdk := toy_sdk [] false)
           "ibm_quantum" "T" "/data" true w0
           tt "ibm_brisbane" [ "QiskitRuntimeService" ]
           [ "QiskitRuntimeService"; "backend ibm_brisbane" ] []).
  - reflexivity.
  - reflexivity.
  - intros c0. vm_compute. discriminate.
  - vm_compute. reflexivity.
Defined.
